(** * Features-table pipeline: transit, rain and day-type collection

    A shallow embedding of the decision logic of the repository's Python
    scripts:

    - [db_mock/mot_collecting_fucntional.py]      (transit normalisation, upsert, driver)
    - [db_mock/bring_into_clonefolder/day_type_collecting.py] and
      [db_mock/day_type_collecting_functional.py] (second Saturday, festivals, day types)
    - [db_mock/bring_into_clonefolder/rain_collecting.py]     (rain update)
    - [db_mock/bring_into_clonefolder/weekly_data_collecting copy.py]
                                                  (quality checks, branching DAG)
    - [db_mock/tables.py]                         (the [features] table)

    Conventions.  The [features] table is a finite map keyed by its primary
    key [feature_date].  SQL [FLOAT] values and Python floats are exact
    rationals ([Q]); NaN and infinities are not modelled.  The quality scores
    are quotients of small integers compared with 0.8: such a quotient is
    either 4/5, whose float is the float of the literal, or far from it, so
    the comparisons on [Q] decide as the float comparisons do.  Python [str]
    values are Rocq strings holding their UTF-8 bytes: substring tests and
    lexicographic order on UTF-8 bytes agree with those on code points.
    Database connection failures are outside the model. *)

From Stdlib Require Import ZArith QArith Qminmax String Ascii List Sorted Permutation Lia.
From stdpp Require Import gmap strings list fin_maps pretty.

Open Scope string_scope.
Open Scope list_scope.
Open Scope Z_scope.

(** ** Python's [datetime.date] and [calendar] *)

Module PyDate.

Record Date := mkDate { year : Z; month : Z; day : Z }.

#[global] Instance Date_eq_dec : EqDecision Date.
Proof. solve_decision. Defined.

#[global] Instance Date_countable : Countable Date.
Proof.
  apply (inj_countable' (fun d => (year d, month d, day d))
                        (fun t => mkDate t.1.1 t.1.2 t.2)).
  by intros [].
Defined.

(** [calendar.isleap] / [datetime._is_leap] *)
Definition isleap (y : Z) : bool :=
  (y mod 4 =? 0) && (negb (y mod 100 =? 0) || (y mod 400 =? 0)).

(** [datetime._days_before_year]: days before January 1st of [y]. *)
Definition days_before_year (y : Z) : Z :=
  let y' := y - 1 in
  y' * 365 + y' / 4 - y' / 100 + y' / 400.

(** [calendar.mdays] / [datetime._DAYS_IN_MONTH], index 0 unused. *)
Definition mdays : list Z := [0; 31; 28; 31; 30; 31; 30; 31; 31; 30; 31; 30; 31].

(** [datetime._DAYS_BEFORE_MONTH] *)
Definition DAYS_BEFORE_MONTH : list Z :=
  [0; 0; 31; 59; 90; 120; 151; 181; 212; 243; 273; 304; 334].

Definition days_before_month (y m : Z) : Z :=
  nth (Z.to_nat m) DAYS_BEFORE_MONTH 0 + (if (2 <? m) && isleap y then 1 else 0).

(** [date.toordinal]: January 1st of year 1 is day 1. *)
Definition ymd2ord (y m d : Z) : Z :=
  days_before_year y + days_before_month y m + d.

Definition toordinal (dt : Date) : Z := ymd2ord (year dt) (month dt) (day dt).

(** [date.weekday]: Monday is 0, Sunday is 6. *)
Definition date_weekday (dt : Date) : Z := (toordinal dt + 6) mod 7.

Definition MINYEAR : Z := 1.
Definition MAXYEAR : Z := 9999.

(** [calendar.weekday(year, month, day)] *)
Definition weekday (y m d : Z) : Z :=
  let y := if (MINYEAR <=? y) && (y <=? MAXYEAR) then y else 2000 + y mod 400 in
  date_weekday (mkDate y m d).

(** [calendar.monthrange]: weekday of the first day, and number of days.
    Python raises [IllegalMonthError] unless [1 <= month <= 12]; every caller
    in the repository passes the literal month 1. *)
Definition monthrange (y m : Z) : Z * Z :=
  (weekday y m 1,
   nth (Z.to_nat m) mdays 0 + (if (m =? 2) && isleap y then 1 else 0)).

(** Python's [[l[i:i+n] for i in range(0, len(l), n)]]. *)
Fixpoint chunks_fuel {A} (fuel : nat) (n : nat) (l : list A) : list (list A) :=
  match fuel with
  | O => []
  | S fuel' =>
      match l with
      | [] => []
      | _ => firstn n l :: chunks_fuel fuel' n (skipn n l)
      end
  end.

Definition chunks {A} (n : nat) (l : list A) : list (list A) :=
  chunks_fuel (length l) n l.

(** [calendar.Calendar(firstweekday=0).itermonthdays] *)
Definition firstweekday : Z := 0.

Definition itermonthdays (y m : Z) : list Z :=
  let '(day1, ndays) := monthrange y m in
  let days_before := (day1 - firstweekday) mod 7 in
  let days_after := (firstweekday - day1 - ndays) mod 7 in
  replicate (Z.to_nat days_before) 0 ++ seqZ 1 ndays
    ++ replicate (Z.to_nat days_after) 0.

(** [calendar.monthcalendar]: the weeks of the month, Monday first, with 0
    for the days that lie outside the month. *)
Definition monthcalendar (y m : Z) : list (list Z) :=
  chunks 7 (itermonthdays y m).

Definition SATURDAY : nat := 5.

(** [cal[w][d]] *)
Definition cal_get (cal : list (list Z)) (w d : nat) : Z :=
  nth d (nth w cal []) 0.

(** Python's [date] comparison: lexicographic on (year, month, day). *)
Definition date_ltb (a b : Date) : bool :=
  (year a <? year b)
  || ((year a =? year b)
      && ((month a <? month b) || ((month a =? month b) && (day a <? day b)))).

Definition date_leb (a b : Date) : bool := negb (date_ltb b a).

(** Zero-padded decimal formatting, [f"{n:0wd}"], for [0 <= n]. *)
Definition zfill (w : nat) (n : Z) : string :=
  let s := pretty n in
  String.concat "" (replicate (w - String.length s)%nat "0") +:+ s.

(** [date.strftime('%Y-%m-%d')], with the four-digit year of the Python
    documentation. *)
Definition strftime_ymd (dt : Date) : string :=
  zfill 4 (year dt) +:+ "-" +:+ zfill 2 (month dt) +:+ "-" +:+ zfill 2 (day dt).

End PyDate.

Import PyDate.

(** ** The [features] table ([tables.py]) *)

Module Features.

(** One row of [features]: [feature_date] is the primary key, [day_type] and
    [dow] are [SMALLINT NOT NULL], the other columns are nullable [FLOAT]. *)
Record Row := mkRow {
  feature_date : Date;
  day_type : Z;
  dow : Z;
  rain_average : option Q;
  arl : option Q;
  bts : option Q;
  mrt_blue : option Q;
  mrt_purple : option Q;
  srt_red : option Q;
  mrt_yellow : option Q;
  mrt_pink : option Q
}.

(** The seven transit-line columns. *)
Inductive Line := ARL | BTS | MRT_BLUE | MRT_PURPLE | MRT_PINK | SRT_RED | MRT_YELLOW.

#[global] Instance Line_eq_dec : EqDecision Line.
Proof. solve_decision. Defined.

Definition line_name (l : Line) : string :=
  match l with
  | ARL => "arl" | BTS => "bts" | MRT_BLUE => "mrt_blue"
  | MRT_PURPLE => "mrt_purple" | MRT_PINK => "mrt_pink"
  | SRT_RED => "srt_red" | MRT_YELLOW => "mrt_yellow"
  end.

Definition get_line (l : Line) (r : Row) : option Q :=
  match l with
  | ARL => arl r | BTS => bts r | MRT_BLUE => mrt_blue r
  | MRT_PURPLE => mrt_purple r | MRT_PINK => mrt_pink r
  | SRT_RED => srt_red r | MRT_YELLOW => mrt_yellow r
  end.

Definition set_line (l : Line) (v : option Q) (r : Row) : Row :=
  match l with
  | ARL => mkRow (feature_date r) (day_type r) (dow r) (rain_average r)
             v (bts r) (mrt_blue r) (mrt_purple r) (srt_red r) (mrt_yellow r) (mrt_pink r)
  | BTS => mkRow (feature_date r) (day_type r) (dow r) (rain_average r)
             (arl r) v (mrt_blue r) (mrt_purple r) (srt_red r) (mrt_yellow r) (mrt_pink r)
  | MRT_BLUE => mkRow (feature_date r) (day_type r) (dow r) (rain_average r)
             (arl r) (bts r) v (mrt_purple r) (srt_red r) (mrt_yellow r) (mrt_pink r)
  | MRT_PURPLE => mkRow (feature_date r) (day_type r) (dow r) (rain_average r)
             (arl r) (bts r) (mrt_blue r) v (srt_red r) (mrt_yellow r) (mrt_pink r)
  | SRT_RED => mkRow (feature_date r) (day_type r) (dow r) (rain_average r)
             (arl r) (bts r) (mrt_blue r) (mrt_purple r) v (mrt_yellow r) (mrt_pink r)
  | MRT_YELLOW => mkRow (feature_date r) (day_type r) (dow r) (rain_average r)
             (arl r) (bts r) (mrt_blue r) (mrt_purple r) (srt_red r) v (mrt_pink r)
  | MRT_PINK => mkRow (feature_date r) (day_type r) (dow r) (rain_average r)
             (arl r) (bts r) (mrt_blue r) (mrt_purple r) (srt_red r) (mrt_yellow r) v
  end.

(** [SET day_type = t] and [SET rain_average = v] on one row. *)
Definition set_day_type (t : Z) (r : Row) : Row :=
  mkRow (feature_date r) t (dow r) (rain_average r)
        (arl r) (bts r) (mrt_blue r) (mrt_purple r) (srt_red r) (mrt_yellow r) (mrt_pink r).

Definition set_rain_average (v : option Q) (r : Row) : Row :=
  mkRow (feature_date r) (day_type r) (dow r) v
        (arl r) (bts r) (mrt_blue r) (mrt_purple r) (srt_red r) (mrt_yellow r) (mrt_pink r).

(** The table, keyed by [feature_date]. *)
Abbreviation Store := (gmap Date Row).

(** Stable insertion sort, used for [sort_values] and [ORDER BY]. *)
Fixpoint insert_by {A} (leb : A -> A -> bool) (x : A) (l : list A) : list A :=
  match l with
  | [] => [x]
  | y :: l' => if leb x y then x :: l else y :: insert_by leb x l'
  end.

Definition sort_by {A} (leb : A -> A -> bool) (l : list A) : list A :=
  foldr (insert_by leb) [] l.

(** Sorted list of the distinct elements, for a strict order [ltb]: the
    group keys of a pandas [groupby]. *)
Fixpoint insert_uniq {A} (ltb : A -> A -> bool) (x : A) (l : list A) : list A :=
  match l with
  | [] => [x]
  | y :: l' =>
      if ltb x y then x :: l
      else if ltb y x then y :: insert_uniq ltb x l'
      else l
  end.

Definition sort_uniq {A} (ltb : A -> A -> bool) (l : list A) : list A :=
  foldr (insert_uniq ltb) [] l.

(** [SELECT MAX(feature_date) FROM features] *)
Definition max_date (l : list Date) : option Date :=
  foldr (fun d acc =>
           match acc with
           | None => Some d
           | Some m => if date_ltb m d then Some d else Some m
           end) None l.

End Features.

Import Features.

(** ** Transit collection ([mot_collecting_fucntional.py]) *)

Module Mot.

(** A pandas [Timestamp]: a date and the nanoseconds since midnight. *)
Record Timestamp := mkTs { ts_date : Date; ts_time : Z }.

Definition ts_ltb (a b : Timestamp) : bool :=
  date_ltb (ts_date a) (ts_date b)
  || (negb (date_ltb (ts_date b) (ts_date a)) && (ts_time a <? ts_time b)).

(** One record of the MOT API.  [r_date] is the value [pd.to_datetime] gives
    for the field 'วันที่' ([None] when it is missing or does not parse),
    [r_vehicle] the field 'ยานพาหนะ/ท่า' ([None] for a null label), [r_amount]
    the value [pd.to_numeric] gives for 'ปริมาณ' ([None] when it does not
    parse). *)
Record RawRecord := mkRaw {
  r_date : option Timestamp;
  r_vehicle : option string;
  r_amount : option Q
}.

Definition is_Some_b {A} (o : option A) : bool :=
  match o with Some _ => true | None => false end.

(** Python's [needle in hay] on strings. *)
Fixpoint contains (needle hay : string) : bool :=
  String.prefix needle hay
  || match hay with
     | EmptyString => false
     | String _ hay' => contains needle hay'
     end.

(** [get_latest_date_from_db] *)
Definition get_latest_date_from_db (S : Store) : option Date :=
  max_date (map fst (map_to_list S)).

(** [filter_new_records] *)
Definition filter_new_records (records : list RawRecord) (since_date : Date)
  : list RawRecord :=
  List.filter (fun r => match r_date r with
                        | Some ts => date_ltb since_date (ts_date ts)
                        | None => false
                        end) records.

(** A pivoted frame: the index (one timestamp per row) and the named value
    columns, each a vector over the index. *)
Record DataFrame := mkDf {
  df_index : list Timestamp;
  df_columns : list (string * list Q)
}.

Definition column_names (df : DataFrame) : list string := map fst (df_columns df).

Fixpoint get_column (c : string) (cols : list (string * list Q)) : option (list Q) :=
  match cols with
  | [] => None
  | (c', v) :: cols' => if String.eqb c c' then Some v else get_column c cols'
  end.

(** [df[c] = v] for an existing column: the column keeps its place. *)
Definition set_column (c : string) (v : list Q) (cols : list (string * list Q))
  : list (string * list Q) :=
  map (fun cv => if String.eqb c (fst cv) then (c, v) else cv) cols.

(** [df.drop(columns=[c])] *)
Definition drop_column (c : string) (cols : list (string * list Q))
  : list (string * list Q) :=
  List.filter (fun cv => negb (String.eqb c (fst cv))) cols.

Definition Qsum (l : list Q) : Q := foldr Qplus 0%Q l.

(** The rows that survive [dropna(subset=['วันที่'])] and the group-by of
    [pivot_table] (which drops null keys), with 'ปริมาณ' coerced
    ([fillna(0)]). *)
Definition observations (records : list RawRecord) : list (Timestamp * string * Q) :=
  omap (fun r => match r_date r, r_vehicle r with
                 | Some ts, Some v => Some (ts, v, default 0%Q (r_amount r))
                 | _, _ => None
                 end) records.

Definition ts_eqb (a b : Timestamp) : bool := negb (ts_ltb a b) && negb (ts_ltb b a).

(** One cell of the pivot table: the sum of the group, [fill_value=0] for an
    absent group. *)
Definition pivot_cell (obs : list (Timestamp * string * Q)) (ts : Timestamp) (c : string) : Q :=
  Qsum (omap (fun o => if ts_eqb (fst (fst o)) ts && String.eqb (snd (fst o)) c
                       then Some (snd o) else None) obs).

(** [df.pivot_table(index='วันที่', columns='ยานพาหนะ/ท่า', values='ปริมาณ',
    aggfunc='sum', fill_value=0).reset_index()]: index and columns are the
    sorted distinct keys. *)
Definition pivot_table (obs : list (Timestamp * string * Q)) : DataFrame :=
  let index := sort_uniq ts_ltb (map (fun o => fst (fst o)) obs) in
  let labels := sort_uniq String.ltb (map (fun o => snd (fst o)) obs) in
  mkDf index (map (fun c => (c, map (fun ts => pivot_cell obs ts c) index)) labels).

(** [line_groups], in the order of the dict. *)
Definition line_groups : list (string * list string) :=
  [ ("ARL", ["arl"; "ARL"; "สุวรรณภูมิ"]);
    ("BTS", ["bts"; "BTS"; "ลูกฟูก"]);
    ("น้ำเงิน", ["น้ำเงิน"; "นำเงิน"; "น้าเงิน"; "สีน้ำเงิน"]);
    ("ม่วง", ["ม่วง"; "มวง"; "สีม่วง"]);
    ("ชมพู", ["ชมพู"; "ชมพูู"; "ชมพุ"; "สีชมพู"]);
    ("แดง", ["แดง"; "แดง"; "สีแดง"; "ชานเมือง"]);
    ("เหลือง", ["เหลือง"; "เหลืง"; "สีเหลือง"]) ].

(** [vehicle_mapping], in the order of the dict. *)
Definition vehicle_mapping : list (string * Line) :=
  [ ("รถไฟฟ้า ARL", ARL);
    ("รถไฟฟ้า BTS", BTS);
    ("รถไฟฟ้าสายสีน้ำเงิน", MRT_BLUE);
    ("รถไฟฟ้าสายสีม่วง", MRT_PURPLE);
    ("รถไฟฟ้าสายสีชมพู", MRT_PINK);
    ("รถไฟฟ้าสายสีแดง", SRT_RED);
    ("รถไฟฟ้าสายสีเหลือง", MRT_YELLOW) ].

(** The inner loop over [matching_cols[1:]]: add each other column into the
    main one and drop it.  [None] is the [KeyError] pandas raises when a named
    column is no longer in the frame. *)
Fixpoint merge_into (main_col : string) (others : list string)
    (cols : list (string * list Q)) : option (list (string * list Q)) :=
  match others with
  | [] => Some cols
  | other_col :: others' =>
      match get_column main_col cols, get_column other_col cols with
      | Some a, Some b =>
          merge_into main_col others'
            (drop_column other_col (set_column main_col (zip_with Qplus a b) cols))
      | _, _ => None
      end
  end.

(** The loop over [line_groups].  [pivot_columns] is the list of names taken
    before the loop; the source does not refresh it between groups. *)
Fixpoint merge_groups (groups : list (string * list string)) (pivot_columns : list string)
    (cols : list (string * list Q)) : option (list (string * list Q)) :=
  match groups with
  | [] => Some cols
  | (_, keywords) :: groups' =>
      let matching_cols :=
        List.filter (fun col => existsb (fun keyword => contains keyword col) keywords)
                    pivot_columns in
      match matching_cols with
      | main_col :: ((_ :: _) as others) =>
          match merge_into main_col others cols with
          | Some cols' => merge_groups groups' pivot_columns cols'
          | None => None
          end
      | _ => merge_groups groups' pivot_columns cols
      end
  end.

(** The first entry of [vehicle_mapping] whose key occurs in the column name. *)
Definition target_of (pivot_col : string) : option Line :=
  snd <$> find (fun vt => contains (fst vt) pivot_col) vehicle_mapping.

(** The loop that fills one record from row [i] of the pivot table. *)
Definition fill_record (i : nat) (cols : list (string * list Q)) (record : Row) : Row :=
  fold_left (fun rec cv =>
               match target_of (fst cv) with
               | Some target_col => set_line target_col (Some (nth i (snd cv) 0%Q)) rec
               | None => rec
               end) cols record.

Definition new_record (record_date : Date) : Row :=
  mkRow record_date (-1) (date_weekday record_date) None
        (Some 0%Q) (Some 0%Q) (Some 0%Q) (Some 0%Q) (Some 0%Q) (Some 0%Q) (Some 0%Q).

Definition row_leb (a b : Row) : bool := date_leb (feature_date a) (feature_date b).

(** What a call does: raise, return [None], or return a frame of rows. *)
Inductive Outcome := Raises | ReturnsNone | Returns (rows : list Row).

(** [process_mot_data].  The call raises when the merge names a column that
    an earlier group dropped ([KeyError]) and when no row is left to build the
    result from (an empty frame has no 'feature_date' to sort by).  pandas'
    default [sort_values] is not stable; the model sorts stably, which fixes
    one of the orders pandas may produce among rows of equal [feature_date]. *)
Definition process_mot_data (records : list RawRecord) : Outcome :=
  match records with
  | [] => ReturnsNone
  | _ =>
      if forallb (fun r => negb (is_Some_b (r_date r))) records then ReturnsNone
      else
        let pivot_df := pivot_table (observations records) in
        let pivot_columns := column_names pivot_df in
        match merge_groups line_groups pivot_columns (df_columns pivot_df) with
        | None => Raises
        | Some cols =>
            let result_data :=
              imap (fun i ts => fill_record i cols (new_record (ts_date ts)))
                   (df_index pivot_df) in
            match result_data with
            | [] => Raises
            | _ => Returns (sort_by row_leb result_data)
            end
        end
  end.

(** One [INSERT ... ON CONFLICT (feature_date) DO UPDATE SET ...] of a row:
    every column is taken from the proposed row. *)
Definition upsert_row (S : Store) (r : Row) : Store := <[feature_date r := r]> S.

(** One statement sent by [execute_values]: a page of rows.  PostgreSQL
    rejects a statement that proposes two rows with the same key ("ON
    CONFLICT DO UPDATE command cannot affect row a second time"). *)
Definition execute_page (S : Store) (page : list Row) : option Store :=
  if bool_decide (NoDup (map feature_date page))
  then Some (fold_left upsert_row page S)
  else None.

Fixpoint execute_pages (pages : list (list Row)) (S : Store) : option Store :=
  match pages with
  | [] => Some S
  | page :: pages' =>
      match execute_page S page with
      | Some S' => execute_pages pages' S'
      | None => None
      end
  end.

(** [execute_values(cur, upsert_sql, values, page_size=100)] *)
Definition execute_values (page_size : nat) (values : list Row) (S : Store) : option Store :=
  execute_pages (chunks page_size values) S.

(** [insert_new_data]: the new table and the returned flag.  Any exception
    (an empty frame at [iloc[0]], a rejected statement) is caught, nothing is
    committed and [False] is returned. *)
Definition insert_new_data (df : list Row) (S : Store) : Store * bool :=
  let df := sort_by row_leb df in
  match df with
  | [] => (S, false)
  | _ =>
      match execute_values 100 df S with
      | Some S' => (S', true)
      | None => (S, false)
      end
  end.

(** The MOT API, as seen by [fetch_mot_data_for_months]: the records of one
    month, or [None] when the request fails or carries no result. *)
Definition Api := Z -> Z -> option (list RawRecord).

(** [fetch_mot_data_for_months] *)
Definition fetch_mot_data_for_months (api : Api) (y : Z) (months : list Z)
  : option (list RawRecord) :=
  match flat_map (fun m => default [] (api y m)) months with
  | [] => None
  | all_records => Some all_records
  end.

Definition ym_ltb (a b : Z * Z) : bool :=
  (fst a <? fst b) || ((fst a =? fst b) && (snd a <? snd b)).

(** [months_to_query] in [main] *)
Definition months_to_query (latest_date today : Date) : list (Z * Z) :=
  if (year latest_date =? year today) && (month latest_date =? month today)
  then [(year today, month today)]
  else sort_uniq ym_ltb [(year latest_date, month latest_date); (year today, month today)].

(** [query_plan] in [main]: months grouped by year, in insertion order. *)
Fixpoint plan_add (y m : Z) (plan : list (Z * list Z)) : list (Z * list Z) :=
  match plan with
  | [] => [(y, [m])]
  | (y', ms) :: plan' =>
      if y =? y' then (y', ms ++ [m]) :: plan' else (y', ms) :: plan_add y m plan'
  end.

Definition query_plan (months : list (Z * Z)) : list (Z * list Z) :=
  fold_left (fun plan ym => plan_add (fst ym) (snd ym) plan) months [].

(** What one run of [main] did: its result ([None] for an uncaught
    exception), the table afterwards, and the (year, month) requests sent to
    the API. *)
Record Run := mkRun {
  run_result : option bool;
  run_store : Store;
  run_requests : list (Z * Z)
}.

(** [main], with the current date and the API as inputs. *)
Definition main (api : Api) (today : Date) (S : Store) : Run :=
  match get_latest_date_from_db S with
  | None => mkRun (Some false) S []
  | Some latest_date =>
      let plan := query_plan (months_to_query latest_date today) in
      let requests := flat_map (fun yms => map (pair (fst yms)) (snd yms)) plan in
      let all_records :=
        flat_map (fun yms =>
                    default [] (fetch_mot_data_for_months api (fst yms) (snd yms))) plan in
      match all_records with
      | [] => mkRun (Some false) S requests
      | _ =>
          match filter_new_records all_records latest_date with
          | [] => mkRun (Some true) S requests
          | new_records =>
              match process_mot_data new_records with
              | Raises => mkRun None S requests
              | ReturnsNone | Returns [] => mkRun (Some false) S requests
              | Returns df =>
                  let '(S', success) := insert_new_data df S in
                  mkRun (Some success) S' requests
              end
          end
      end
  end.

End Mot.

Import Mot.

(** ** Rain collection ([rain_collecting.py]) *)

Module Rain.

(** One [UPDATE features SET rain_average = v WHERE feature_date = d AND
    rain_average IS NULL]: the new table and [cur.rowcount]. *)
Definition update_rain_row (S : Store) (d : Date) (v : Q) : Store * nat :=
  match S !! d with
  | Some r =>
      match rain_average r with
      | None => (<[d := set_rain_average (Some v) r]> S, 1%nat)
      | Some _ => (S, 0%nat)
      end
  | None => (S, 0%nat)
  end.

(** The loop of [update_rain_average_in_db]: table and [updated_count]. *)
Definition update_rain_rows (rain_data : list (Date * Q)) (S : Store) : Store * nat :=
  fold_left (fun acc row =>
               let '(S', n) := update_rain_row (fst acc) (fst row) (snd row) in
               (S', (snd acc + (if (0 <? n)%nat then 1 else 0))%nat))
            rain_data (S, 0%nat).

(** [update_rain_average_in_db]: rows are (date, rain_average). *)
Definition update_rain_average_in_db (rain_data : list (Date * Q)) (S : Store)
  : Store * bool :=
  match rain_data with
  | [] => (S, false)
  | _ => (fst (update_rain_rows rain_data S), true)
  end.

End Rain.

Import Rain.

(** ** Day-type collection ([day_type_collecting.py]) *)

Module DayType.

(** The day number computed in the body of [get_second_saturday]. *)
Definition second_saturday_day (y m : Z) : Z :=
  let cal := monthcalendar y m in
  if negb (cal_get cal 0 SATURDAY =? 0) then
    cal_get cal 1 SATURDAY
  else
    let second_saturday := cal_get cal 1 SATURDAY in
    if second_saturday =? 0 then cal_get cal 2 SATURDAY else second_saturday.

(** [get_second_saturday(year, month)] *)
Definition get_second_saturday (y m : Z) : string :=
  zfill 4 y +:+ "-" +:+ zfill 2 m +:+ "-" +:+ zfill 2 (second_saturday_day y m).

(** The Saturdays of a month in calendar order, and the second of them: the
    conventional meaning of "second Saturday", against which the code is
    compared. *)
Definition saturdays (y m : Z) : list Z :=
  List.filter (fun d => weekday y m d =? 5) (seqZ 1 (snd (monthrange y m))).

Definition conventional_second_saturday (y m : Z) : Z :=
  nth 1 (saturdays y m) 0.

(** [get_festival_dates(year)], in the order of the dict. *)
Definition get_festival_dates (y : Z) : list (string * string) :=
  let second_sat_jan := get_second_saturday y 1 in
  [ ("วันเด็ก", second_sat_jan);
    ("วาเลนไทน์", pretty y +:+ "-02-14");
    ("สงกรานต์ วันที่ 1", pretty y +:+ "-04-13");
    ("สงกรานต์ วันที่ 2", pretty y +:+ "-04-14");
    ("สงกรานต์ วันที่ 3", pretty y +:+ "-04-15");
    ("คริสต์มาสอีฟ", pretty y +:+ "-12-24");
    ("คริสต์มาส", pretty y +:+ "-12-25");
    ("วันสิ้นปี", pretty y +:+ "-12-31") ].

(** The priority chain in the classification loop (the same in
    [classify_day_types] and in [day_type_collecting_functional.py]):
    [day_type] and [day_category] of one date string. *)
Definition day_type_of (date_str : string) (holiday_dates festival_dates : gset string)
  : Z * string :=
  if bool_decide (date_str ∈ holiday_dates) then (0, "Holiday")
  else if bool_decide (date_str ∈ festival_dates) then (2, "Festival")
  else (1, "Normal/Weekend").

(** One row of the frame built by [classify_day_types] (the English weekday
    name, a display column, is left out). *)
Record DayTypeRow := mkDayTypeRow {
  dt_feature_date : Date;
  dt_day_type : Z;
  dt_day_category : string;
  dt_is_weekend : bool
}.

(** [festival_dates] in [classify_day_types]: the festivals of every year
    that occurs in [dates]. *)
Definition festival_dates_of (dates : list Date) : gset string :=
  list_to_set (flat_map (fun d => map snd (get_festival_dates (year d))) dates).

(** [classify_day_types(dates, holiday_df)], with the set [holiday_dates]
    read from [holiday_df] as its second input. *)
Definition classify_day_types (dates : list Date) (holiday_dates : gset string)
  : list DayTypeRow :=
  let festival_dates := festival_dates_of dates in
  map (fun date_obj =>
         let date_str := strftime_ymd date_obj in
         let '(day_type, day_category) := day_type_of date_str holiday_dates festival_dates in
         mkDayTypeRow date_obj day_type day_category (5 <=? date_weekday date_obj))
      dates.

(** One [UPDATE features SET day_type = t WHERE feature_date = d AND
    day_type = -1]: the new table and [cur.rowcount]. *)
Definition update_day_type_row (S : Store) (d : Date) (t : Z) : Store * nat :=
  match S !! d with
  | Some r =>
      if Features.day_type r =? -1
      then (<[d := set_day_type t r]> S, 1%nat)
      else (S, 0%nat)
  | None => (S, 0%nat)
  end.

(** The loop of [update_day_type_in_db]: table and [updated_count]. *)
Definition update_day_type_rows (day_type_data : list (Date * Z)) (S : Store) : Store * nat :=
  fold_left (fun acc row =>
               let '(S', n) := update_day_type_row (fst acc) (fst row) (snd row) in
               (S', (snd acc + (if (0 <? n)%nat then 1 else 0))%nat))
            day_type_data (S, 0%nat).

(** [update_day_type_in_db]: rows are (feature_date, day_type). *)
Definition update_day_type_in_db (day_type_data : list (Date * Z)) (S : Store)
  : Store * bool :=
  match day_type_data with
  | [] => (S, false)
  | _ => (fst (update_day_type_rows day_type_data S), true)
  end.

End DayType.

Import DayType.

(** ** The weekly DAG ([weekly_data_collecting copy.py]) *)

Module Weekly.

Inductive Verdict := PASS | WARNING | FAIL.

#[global] Instance Verdict_eq_dec : EqDecision Verdict.
Proof. solve_decision. Defined.

(** The tasks of the DAG, named by their [task_id]. *)
Inductive Task :=
  | start_weekly_data_collection
  | collect_mot_transport_data
  | mot_quality_check
  | collect_rain_weather_data
  | rain_quality_check
  | collect_day_type_data
  | day_type_quality_check
  | final_quality_validation
  | pipeline_success
  | mot_quality_failed
  | rain_quality_failed
  | day_type_quality_failed
  | end_weekly_data_collection.

#[global] Instance Task_eq_dec : EqDecision Task.
Proof. solve_decision. Defined.

Definition Qltb (a b : Q) : bool := negb (Qle_bool b a).

Definition is_nil_b {A} (l : list A) : bool :=
  match l with [] => true | _ => false end.

(** [feature_date >= CURRENT_DATE - INTERVAL '7 days'] *)
Definition in_window (today d : Date) : bool :=
  toordinal today - 7 <=? toordinal d.

(** The rows selected by the window condition. *)
Definition window_rows (today : Date) (S : Store) : list Row :=
  List.filter (fun r => in_window today (feature_date r)) (map snd (map_to_list S)).

Definition order_by_feature_date (rows : list Row) : list Row := sort_by row_leb rows.

Definition transport_columns : list Line :=
  [ARL; BTS; MRT_BLUE; MRT_PURPLE; MRT_PINK; SRT_RED; MRT_YELLOW].

Definition is_null (v : option Q) : bool :=
  match v with None => true | Some _ => false end.

Definition is_zero (v : option Q) : bool :=
  match v with Some q => Qeq_bool q 0 | None => false end.

(** [str(row[0])] of a date *)
Definition date_str (r : Row) : string := strftime_ymd (feature_date r).

(** The [issues] list built for one column. *)
Definition column_issues (rows : list Row) (column : Line) : list string :=
  let null_dates :=
    map date_str
        (order_by_feature_date (List.filter (fun r => is_null (get_line column r)) rows)) in
  let zero_dates :=
    map date_str
        (order_by_feature_date (List.filter (fun r => is_zero (get_line column r)) rows)) in
  map (fun date => date +:+ " (NULL)") null_dates
  ++ map (fun date => date +:+ " (ZERO)") zero_dates.

(** [quality_check["missing_data"]]: an entry for each column with issues. *)
Definition missing_data_of (rows : list Row) : list (string * list string) :=
  flat_map (fun column =>
              match column_issues rows column with
              | [] => []
              | issues => [(line_name column, issues)]
              end) transport_columns.

(** [anomaly_thresholds] *)
Definition anomaly_threshold (column : Line) : Z :=
  match column with
  | BTS => 2000000
  | MRT_BLUE => 1500000
  | MRT_PURPLE => 800000
  | ARL => 200000
  | SRT_RED => 300000
  | MRT_YELLOW => 500000
  | MRT_PINK => 400000
  end.

(** One entry of [quality_check["anomalies"]]; the source renders it as a
    message naming column, value, kind and date. *)
Record Anomaly := mkAnomaly {
  an_column : string;
  an_value : Q;
  an_negative : bool;
  an_date : Date
}.

Definition column_anomalies (rows : list Row) (column : Line) : list Anomaly :=
  let threshold := anomaly_threshold column in
  omap (fun r =>
          match get_line column r with
          | Some value =>
              if Qltb (inject_Z threshold) value || Qltb value 0
              then Some (mkAnomaly (line_name column) value (Qltb value 0) (feature_date r))
              else None
          | None => None
          end) rows.

(** Python's [max(0, x)] *)
Definition max0 (x : Q) : Q := if Qltb 0 x then x else 0%Q.

Record MotQuality := mkMotQuality {
  mot_records_processed : Z;
  mot_missing_data : list (string * list string);
  mot_anomalies : list Anomaly;
  mot_quality_score : Q;
  mot_status : Verdict
}.

(** The report built by [check_mot_data_quality]. *)
Definition mot_quality_report (today : Date) (S : Store) : MotQuality :=
  let rows := window_rows today S in
  let records_processed := Z.of_nat (length rows) in
  let missing_data := missing_data_of rows in
  let anomalies := flat_map (column_anomalies rows) transport_columns in
  let total_expected_records := 7 * Z.of_nat (length transport_columns) in
  let total_missing := Z.of_nat (list_sum (map (fun e => length (snd e)) missing_data)) in
  let quality_score :=
    max0 (inject_Z (total_expected_records - total_missing)
          / inject_Z total_expected_records)%Q in
  let status :=
    if Qltb quality_score (8 # 10) then FAIL
    else if negb (is_nil_b anomalies) || (0 <? total_missing) then WARNING
    else PASS in
  mkMotQuality records_processed missing_data anomalies quality_score status.

(** [check_mot_data_quality]: the pushed report and the branch decision. *)
Definition check_mot_data_quality (today : Date) (S : Store) : MotQuality * Task :=
  let quality_check := mot_quality_report today S in
  (quality_check,
   if decide (mot_status quality_check = FAIL)
   then mot_quality_failed
   else collect_rain_weather_data).

Record RainQuality := mkRainQuality {
  rain_records_processed : Z;
  rain_null_rain_remaining : Z;
  rain_anomalies : list (Date * Q);
  rain_quality_score : Q;
  rain_status : Verdict
}.

(** [mot_result.get("records_processed", 0) if mot_result else 7] *)
Definition total_records_of (mot_result : option MotQuality) : Z :=
  match mot_result with
  | Some m => mot_records_processed m
  | None => 7
  end.

(** The report built by [check_rain_data_quality]. *)
Definition rain_quality_report (today : Date) (mot_result : option MotQuality) (S : Store)
  : RainQuality :=
  let rows := window_rows today S in
  let null_rain_remaining :=
    Z.of_nat (length (List.filter (fun r => is_null (rain_average r)) rows)) in
  let records_processed :=
    Z.of_nat (length (List.filter (fun r => negb (is_null (rain_average r))) rows)) in
  let anomalies :=
    omap (fun r => match rain_average r with
                   | Some v => if Qltb v 0 || Qltb 200 v then Some (feature_date r, v) else None
                   | None => None
                   end) rows in
  let total_records := total_records_of mot_result in
  let quality_score :=
    if 0 <? total_records
    then (inject_Z records_processed / inject_Z total_records)%Q
    else 0%Q in
  let status := if 0 <? null_rain_remaining then WARNING else PASS in
  let status := if Qltb quality_score (8 # 10) then FAIL else status in
  mkRainQuality records_processed null_rain_remaining anomalies quality_score status.

(** [check_rain_data_quality] *)
Definition check_rain_data_quality (today : Date) (mot_result : option MotQuality)
    (S : Store) : RainQuality * Task :=
  let quality_check := rain_quality_report today mot_result S in
  (quality_check,
   if decide (rain_status quality_check = FAIL)
   then rain_quality_failed
   else collect_day_type_data).

Record DayTypeQuality := mkDayTypeQuality {
  dtq_records_processed : Z;
  dtq_pending_day_type_remaining : Z;
  dtq_classification_errors : list string;
  dtq_quality_score : Q;
  dtq_status : Verdict
}.

(** The rows of the "Logic Validation" query:
    [dow IN (6, 0) AND day_type NOT IN (1, 2)]. *)
Definition weekend_errors (rows : list Row) : list Row :=
  List.filter (fun r => ((dow r =? 6) || (dow r =? 0))
                        && negb ((day_type r =? 1) || (day_type r =? 2))) rows.

(** The message appended for one row of [weekend_errors]. *)
Definition classification_error (r : Row) : string :=
  let day_name := if dow r =? 6 then "Saturday" else "Sunday" in
  day_name +:+ " " +:+ date_str r +:+ " classified as day_type=" +:+ pretty (day_type r).

(** The report built by [check_day_type_data_quality]. *)
Definition day_type_quality_report (today : Date) (mot_result : option MotQuality)
    (S : Store) : DayTypeQuality :=
  let rows := window_rows today S in
  let pending_day_type_remaining :=
    Z.of_nat (length (List.filter (fun r => day_type r =? -1) rows)) in
  let records_processed :=
    Z.of_nat (length (List.filter (fun r => negb (day_type r =? -1)) rows)) in
  let classification_errors := map classification_error (weekend_errors rows) in
  let total_records := total_records_of mot_result in
  let quality_score :=
    if 0 <? total_records
    then (inject_Z records_processed / inject_Z total_records)%Q
    else 0%Q in
  let status := if 0 <? pending_day_type_remaining then WARNING else PASS in
  let status := if negb (is_nil_b classification_errors) then WARNING else status in
  let status := if Qltb quality_score (8 # 10) then FAIL else status in
  mkDayTypeQuality records_processed pending_day_type_remaining classification_errors
                   quality_score status.

(** [check_day_type_data_quality] *)
Definition check_day_type_data_quality (today : Date) (mot_result : option MotQuality)
    (S : Store) : DayTypeQuality * Task :=
  let quality_check := day_type_quality_report today mot_result S in
  (quality_check,
   if decide (dtq_status quality_check = FAIL)
   then day_type_quality_failed
   else final_quality_validation).

(** *** The DAG and one run of it

    The wiring is the file's [>>] statements and [trigger_rule] arguments.
    The run follows the rules the file states for Airflow: the task returned
    by a [BranchPythonOperator] is the only direct successor that runs, the
    others are marked skipped; [all_success] runs a task when all its
    upstream tasks succeeded; [none_failed_min_one_success] runs it when at
    least one upstream task succeeded and none failed.  A task that is not
    run is skipped.  Collection tasks are Spark applications that rewrite the
    table; they are inputs of the run. *)

Definition edges : list (Task * Task) :=
  [ (start_weekly_data_collection, collect_mot_transport_data);
    (collect_mot_transport_data, mot_quality_check);
    (mot_quality_check, collect_rain_weather_data);
    (mot_quality_check, mot_quality_failed);
    (collect_rain_weather_data, rain_quality_check);
    (rain_quality_check, collect_day_type_data);
    (rain_quality_check, rain_quality_failed);
    (collect_day_type_data, day_type_quality_check);
    (day_type_quality_check, final_quality_validation);
    (day_type_quality_check, day_type_quality_failed);
    (final_quality_validation, pipeline_success);
    (pipeline_success, end_weekly_data_collection);
    (mot_quality_failed, end_weekly_data_collection);
    (rain_quality_failed, end_weekly_data_collection);
    (day_type_quality_failed, end_weekly_data_collection) ].

Definition upstream (t : Task) : list Task :=
  map fst (List.filter (fun e => bool_decide (snd e = t)) edges).

Definition downstream (t : Task) : list Task :=
  map snd (List.filter (fun e => bool_decide (fst e = t)) edges).

Inductive TriggerRule := all_success | none_failed_min_one_success.

Definition trigger_rule (t : Task) : TriggerRule :=
  match t with
  | collect_rain_weather_data | collect_day_type_data | final_quality_validation
  | pipeline_success | end_weekly_data_collection => none_failed_min_one_success
  | _ => all_success
  end.

Inductive TaskState := success | skipped.

#[global] Instance TaskState_eq_dec : EqDecision TaskState.
Proof. solve_decision. Defined.

(** The state of a run: the table, the XCom values pushed so far, and the
    states of the tasks decided so far (latest first). *)
Record RunState := mkRunState {
  rs_store : Store;
  rs_mot_result : option MotQuality;
  rs_rain_result : option RainQuality;
  rs_day_type_result : option DayTypeQuality;
  rs_states : list (Task * TaskState)
}.

Definition state_of (t : Task) (states : list (Task * TaskState)) : option TaskState :=
  snd <$> find (fun p => bool_decide (fst p = t)) states.

Definition succeeded (states : list (Task * TaskState)) (t : Task) : bool :=
  bool_decide (state_of t states = Some success).

(** No task fails in the model, so "none failed" always holds. *)
Definition triggered (t : Task) (states : list (Task * TaskState)) : bool :=
  match trigger_rule t with
  | all_success => forallb (succeeded states) (upstream t)
  | none_failed_min_one_success => existsb (succeeded states) (upstream t)
  end.

(** A finished branch task: it succeeded, and its direct successors other
    than [chosen] are skipped. *)
Definition branch_states (t chosen : Task) (states : list (Task * TaskState))
  : list (Task * TaskState) :=
  map (fun d => (d, skipped))
      (List.filter (fun d => negb (bool_decide (d = chosen))) (downstream t))
  ++ (t, success) :: states.

(** A topological order of the DAG. *)
Definition schedule : list Task :=
  [ start_weekly_data_collection; collect_mot_transport_data; mot_quality_check;
    mot_quality_failed; collect_rain_weather_data; rain_quality_check;
    rain_quality_failed; collect_day_type_data; day_type_quality_check;
    day_type_quality_failed; final_quality_validation; pipeline_success;
    end_weekly_data_collection ].

Section Run.

Variable today : Date.
Variables collect_mot collect_rain collect_day_type : Store -> Store.

(** Running one task that was triggered. *)
Definition execute (t : Task) (st : RunState) : RunState :=
  let done := (t, success) :: rs_states st in
  match t with
  | collect_mot_transport_data =>
      mkRunState (collect_mot (rs_store st)) (rs_mot_result st) (rs_rain_result st)
                 (rs_day_type_result st) done
  | collect_rain_weather_data =>
      mkRunState (collect_rain (rs_store st)) (rs_mot_result st) (rs_rain_result st)
                 (rs_day_type_result st) done
  | collect_day_type_data =>
      mkRunState (collect_day_type (rs_store st)) (rs_mot_result st) (rs_rain_result st)
                 (rs_day_type_result st) done
  | mot_quality_check =>
      let '(q, chosen) := check_mot_data_quality today (rs_store st) in
      mkRunState (rs_store st) (Some q) (rs_rain_result st) (rs_day_type_result st)
                 (branch_states t chosen (rs_states st))
  | rain_quality_check =>
      let '(q, chosen) := check_rain_data_quality today (rs_mot_result st) (rs_store st) in
      mkRunState (rs_store st) (rs_mot_result st) (Some q) (rs_day_type_result st)
                 (branch_states t chosen (rs_states st))
  | day_type_quality_check =>
      let '(q, chosen) := check_day_type_data_quality today (rs_mot_result st) (rs_store st) in
      mkRunState (rs_store st) (rs_mot_result st) (rs_rain_result st) (Some q)
                 (branch_states t chosen (rs_states st))
  | _ =>
      mkRunState (rs_store st) (rs_mot_result st) (rs_rain_result st)
                 (rs_day_type_result st) done
  end.

(** Deciding one task: keep a state set by a branch, else run it when its
    trigger rule holds, else skip it. *)
Definition step (st : RunState) (t : Task) : RunState :=
  match state_of t (rs_states st) with
  | Some _ => st
  | None =>
      if triggered t (rs_states st) then execute t st
      else mkRunState (rs_store st) (rs_mot_result st) (rs_rain_result st)
                      (rs_day_type_result st) ((t, skipped) :: rs_states st)
  end.

Definition run_dag (S : Store) : RunState :=
  fold_left step schedule (mkRunState S None None None []).

(** The tasks that ran, in schedule order. *)
Definition ran (st : RunState) : list Task :=
  List.filter (succeeded (rs_states st)) schedule.

End Run.

End Weekly.

Import Weekly.

(** ** Reference notions for the quality report *)

Module QualitySpec.

(** A cell counts as missing when it is NULL or exactly zero. *)
Definition cell_missing (v : option Q) : bool :=
  match v with
  | None => true
  | Some q => Qeq_bool q 0
  end.

(** The missing cells of a list of rows, counted row by row. *)
Definition missing_cells (rows : list Row) : nat :=
  list_sum (map (fun r =>
                   length (List.filter (fun c => cell_missing (get_line c r))
                                       transport_columns)) rows).

(** A cell is anomalous when it is negative or above its line's threshold. *)
Definition cell_anomalous (c : Line) (r : Row) : bool :=
  match get_line c r with
  | Some v => Qltb (inject_Z (anomaly_threshold c)) v || Qltb v 0
  | None => false
  end.

Definition any_anomaly (rows : list Row) : bool :=
  existsb (fun r => existsb (fun c => cell_anomalous c r) transport_columns) rows.

End QualitySpec.

Import QualitySpec.

(** ** Reference notions for the placeholder-guarded updates *)

Module Guarded.

(** The common shape of the two [UPDATE ... WHERE feature_date = d AND
    <column still holds its placeholder>] statements: [guard] is the
    placeholder test and [upd] the assignment. *)
Definition guarded_update {V} (guard : Row -> bool) (upd : V -> Row -> Row)
    (S : Store) (d : Date) (v : V) : Store :=
  match S !! d with
  | Some r => if guard r then <[d := upd v r]> S else S
  | None => S
  end.

Definition guarded_updates {V} (guard : Row -> bool) (upd : V -> Row -> Row)
    (batch : list (Date * V)) (S : Store) : Store :=
  fold_left (fun S' row => guarded_update guard upd S' (fst row) (snd row)) batch S.

(** Two rows that agree on every column but [day_type]. *)
Definition agree_except_day_type (r r' : Row) : Prop :=
  feature_date r' = feature_date r /\ dow r' = dow r
  /\ rain_average r' = rain_average r /\ forall l, get_line l r' = get_line l r.

(** Two rows that agree on every column but [rain_average]. *)
Definition agree_except_rain_average (r r' : Row) : Prop :=
  feature_date r' = feature_date r /\ dow r' = dow r
  /\ day_type r' = day_type r /\ forall l, get_line l r' = get_line l r.

(** The two instances: the placeholder tests and assignments of
    [update_day_type_in_db] and [update_rain_average_in_db]. *)
Definition day_type_pending (r : Row) : bool := day_type r =? -1.

Definition rain_pending (r : Row) : bool :=
  match rain_average r with None => true | Some _ => false end.

Definition set_rain_value (v : Q) (r : Row) : Row := set_rain_average (Some v) r.

End Guarded.

Import Guarded.

(** ** Reference notions for the transit batch *)

Module BatchSpec.

(** A batch in which two parsed dates on the same day never differ in their
    time of day; in particular a batch of date-only values. *)
Definition one_stamp_per_day (records : list RawRecord) : bool :=
  forallb (fun r1 =>
    forallb (fun r2 =>
      match r_date r1, r_date r2 with
      | Some a, Some b =>
          implb (bool_decide (ts_date a = ts_date b)) (ts_time a =? ts_time b)
      | _, _ => true
      end) records) records.

End BatchSpec.

Import BatchSpec.

(** ** Gap detection and the drivers of the rain and day-type scripts *)

Module RainRun.

(** [get_null_rain_dates_from_db]:
    [SELECT feature_date FROM features WHERE rain_average IS NULL ORDER BY
    feature_date]. *)
Definition get_null_rain_dates_from_db (S : Store) : list Date :=
  sort_by date_leb
    (map fst (List.filter (fun kr => match rain_average (snd kr) with
                                     | None => true
                                     | Some _ => false
                                     end) (map_to_list S))).

(** What the weather side gives [main] for the dates it asks about: the
    (date, rain_average) rows of [fetch_rain_data_for_dates], or [None] when
    the client cannot be set up or no station answers.  The averages are
    taken to be numbers (no NaN). *)
Definition Fetch := list Date -> option (list (Date * Q)).

(** [main] of [rain_collecting.py]: the table afterwards and the result. *)
Definition main (fetch : Fetch) (S : Store) : Store * bool :=
  match get_null_rain_dates_from_db S with
  | [] => (S, true)
  | null_rain_dates =>
      match fetch null_rain_dates with
      | None | Some [] => (S, false)
      | Some rain_data => update_rain_average_in_db rain_data S
      end
  end.

End RainRun.

Module DayTypeRun.

(** [get_day_type_null_dates_from_db]:
    [SELECT feature_date FROM features WHERE day_type = -1 ORDER BY
    feature_date]. *)
Definition get_day_type_null_dates_from_db (S : Store) : list Date :=
  sort_by date_leb
    (map fst (List.filter (fun kr => day_type (snd kr) =? -1) (map_to_list S))).

(** The (feature_date, day_type) pairs [update_day_type_in_db] reads from the
    classified frame. *)
Definition day_type_pairs (day_type_data : list DayTypeRow) : list (Date * Z) :=
  map (fun row => (dt_feature_date row, dt_day_type row)) day_type_data.

(** [main] of [day_type_collecting.py], with the holiday set read from the
    downloaded calendar as input (empty when the download fails). *)
Definition main (holiday_dates : gset string) (S : Store) : Store * bool :=
  match get_day_type_null_dates_from_db S with
  | [] => (S, true)
  | null_day_type_dates =>
      match classify_day_types null_day_type_dates holiday_dates with
      | [] => (S, false)
      | day_type_data => update_day_type_in_db (day_type_pairs day_type_data) S
      end
  end.

End DayTypeRun.

(** ** The final report of the DAG *)

Module FinalReport.

(** [result.get("status", "UNKNOWN") if result else "UNKNOWN"]: [None] stands
    for "UNKNOWN". *)
Definition statuses (st : RunState) : list (option Verdict) :=
  [ mot_status <$> rs_mot_result st;
    rain_status <$> rs_rain_result st;
    dtq_status <$> rs_day_type_result st ].

(** [final_report["overall_status"]] in [generate_final_report]. *)
Definition overall_status (st : RunState) : Verdict :=
  if existsb (fun s => bool_decide (s = Some FAIL)) (statuses st) then FAIL
  else if existsb (fun s => bool_decide (s = Some WARNING)) (statuses st) then WARNING
  else PASS.

End FinalReport.

(** ** Reference notions for well-labelled transit batches *)

Module LabelSpec.

(** The label [vehicle_mapping] lists for a line. *)
Definition canonical_label (l : Line) : string :=
  match l with
  | ARL => "รถไฟฟ้า ARL"
  | BTS => "รถไฟฟ้า BTS"
  | MRT_BLUE => "รถไฟฟ้าสายสีน้ำเงิน"
  | MRT_PURPLE => "รถไฟฟ้าสายสีม่วง"
  | MRT_PINK => "รถไฟฟ้าสายสีชมพู"
  | SRT_RED => "รถไฟฟ้าสายสีแดง"
  | MRT_YELLOW => "รถไฟฟ้าสายสีเหลือง"
  end.






End LabelSpec.

Import LabelSpec.

(** ** Concrete inputs used below *)

Module Examples.

(** Songkran 2025-04-14: a fixed festival date that is also a public holiday. *)
Definition holidays_2025 : gset string := {[ "2025-01-01"; "2025-04-14"; "2025-05-01" ]}.

Definition festivals_2025 : gset string :=
  list_to_set (map snd (get_festival_dates 2025)).

(** Two spellings of the Purple Line on one date. *)
Definition purple_batch : list RawRecord :=
  [ mkRaw (Some (mkTs (mkDate 2025 9 4) 0)) (Some "รถไฟฟ้าสายสีม่วง") (Some 100%Q);
    mkRaw (Some (mkTs (mkDate 2025 9 4) 0)) (Some "มวง-สาย") (Some 50%Q) ].

Definition full_row (d : Date) (t w : Z) : Row :=
  mkRow d t w None (Some 60000%Q) (Some 700000%Q) (Some 400000%Q) (Some 70000%Q)
        (Some 30000%Q) (Some 40000%Q) (Some 50000%Q).

(** Saturday 2025-09-06 typed Holiday, with [dow] as [process_mot_data]
    stores it. *)
Definition saturday_store : Store :=
  {[ mkDate 2025 9 6 := full_row (mkDate 2025 9 6) 0 (date_weekday (mkDate 2025 9 6)) ]}.

(** Monday 2025-09-08 typed Holiday. *)
Definition monday_store : Store :=
  {[ mkDate 2025 9 8 := full_row (mkDate 2025 9 8) 0 (date_weekday (mkDate 2025 9 8)) ]}.

(** A table with ten missing cells in the window of 2025-09-08: one row with
    all seven lines at zero, one with two zeros and a NULL. *)
Definition ten_missing_store : Store :=
  {[ mkDate 2025 9 5 :=
       mkRow (mkDate 2025 9 5) (-1) 4 None (Some 0%Q) (Some 0%Q) (Some 0%Q) (Some 0%Q)
             (Some 0%Q) (Some 0%Q) (Some 0%Q);
     mkDate 2025 9 6 :=
       mkRow (mkDate 2025 9 6) (-1) 5 None (Some 0%Q) (Some 700000%Q) (Some 0%Q) None
             (Some 30000%Q) (Some 40000%Q) (Some 50000%Q) ]}.

(** An API that holds one BTS count for every month asked. *)
Definition example_api : Api :=
  fun y m => Some [ mkRaw (Some (mkTs (mkDate y m 1) 0)) (Some "รถไฟฟ้า BTS") (Some 700000%Q) ].

(** Two BTS counts stamped at different hours of one day. *)
Definition same_day_batch : list RawRecord :=
  [ mkRaw (Some (mkTs (mkDate 2025 9 4) 0)) (Some "รถไฟฟ้า BTS") (Some 100%Q);
    mkRaw (Some (mkTs (mkDate 2025 9 4) 3600000000000)) (Some "รถไฟฟ้า BTS") (Some 50%Q) ].

(** Two days of counts with date-only stamps. *)
Definition two_day_batch : list RawRecord :=
  [ mkRaw (Some (mkTs (mkDate 2025 9 5) 0)) (Some "รถไฟฟ้า BTS") (Some 710000%Q);
    mkRaw (Some (mkTs (mkDate 2025 9 4) 0)) (Some "รถไฟฟ้า BTS") (Some 700000%Q);
    mkRaw (Some (mkTs (mkDate 2025 9 4) 0)) (Some "รถไฟฟ้า ARL") (Some 60000%Q);
    mkRaw None (Some "รถไฟฟ้า ARL") (Some 1%Q) ].

End Examples.

Import Examples.

(** ** Concrete runs of the scripts *)

Module Scenarios.

(** A row with every column filled in. *)
Definition settled_row (d : Date) (t w : Z) (rain : Q) : Row :=
  set_rain_average (Some rain) (full_row d t w).

(** Friday 2025-09-05 is complete; Saturday 2025-09-06 has its counts but
    still waits for its rain value and its day type. *)
Definition half_filled_store : Store :=
  {[ mkDate 2025 9 5 := settled_row (mkDate 2025 9 5) 1 4 (3 # 2);
     mkDate 2025 9 6 := full_row (mkDate 2025 9 6) (-1) 5 ]}.

(** A table whose only row is complete. *)
Definition complete_store : Store :=
  {[ mkDate 2025 9 5 := settled_row (mkDate 2025 9 5) 1 4 (3 # 2) ]}.

(** A weather side that answers 5 mm for every date it is asked about. *)
Definition steady_rain : RainRun.Fetch :=
  fun dates => Some (map (fun d => (d, 5%Q)) dates).



(** The row [process_mot_data] builds from the one BTS count that
    [example_api] holds for October 2025. *)
Definition october_first_row : Row :=
  mkRow (mkDate 2025 10 1) (-1) 2 None
        (Some 0%Q) (Some 700000%Q) (Some 0%Q) (Some 0%Q) (Some 0%Q) (Some 0%Q) (Some 0%Q).

End Scenarios.

Import Scenarios.

(** * Properties *)

(** ** Calendar facts *)

Lemma weekday_range y m d : 0 <= weekday y m d < 7.
Proof. unfold weekday, date_weekday. apply Z.mod_pos_bound. lia. Qed.

(** Within a month the weekday advances with the day number. *)
Lemma weekday_shift y m d : weekday y m d = (weekday y m 1 + (d - 1)) mod 7.
Proof.
  unfold weekday, date_weekday, toordinal, ymd2ord; cbn [year month day].
  rewrite Z.add_mod_idemp_l by lia. f_equal. lia.
Qed.

Lemma monthrange_ndays y m :
  1 <= m <= 12 -> 28 <= snd (monthrange y m) <= 31.
Proof.
  intros Hm. unfold monthrange; cbn [snd].
  assert (Hc : m = 1 \/ m = 2 \/ m = 3 \/ m = 4 \/ m = 5 \/ m = 6 \/ m = 7 \/ m = 8
               \/ m = 9 \/ m = 10 \/ m = 11 \/ m = 12) by lia.
  destruct (isleap y);
    repeat (destruct Hc as [Hc | Hc]; [subst m; vm_compute; split; discriminate |]);
    subst m; vm_compute; split; discriminate.
Qed.

Lemma saturdays_by_first_day y m :
  saturdays y m
  = List.filter (fun d => (weekday y m 1 + (d - 1)) mod 7 =? 5)
                (seqZ 1 (snd (monthrange y m))).
Proof.
  unfold saturdays. apply List.filter_ext. intros d. now rewrite <- weekday_shift.
Qed.

(** What [get_second_saturday] computes: the Saturday of the second calendar
    week.  It is the second Saturday of the month unless the month starts on
    a Sunday; then it is the first one, and the branch that looks at the
    third week is never taken. *)
Lemma second_saturday_day_cases y m :
  1 <= m <= 12 ->
  (weekday y m 1 <> 6 -> second_saturday_day y m = conventional_second_saturday y m)
  /\ (weekday y m 1 = 6 ->
      second_saturday_day y m = 7 /\ conventional_second_saturday y m = 14).
Proof.
  intros Hm.
  unfold conventional_second_saturday. rewrite saturdays_by_first_day.
  unfold second_saturday_day, monthcalendar, itermonthdays.
  pose proof (monthrange_ndays y m Hm) as Hn.
  pose proof (weekday_range y m 1) as Hw.
  unfold monthrange in *. cbn [snd] in *.
  set (day1 := weekday y m 1) in *.
  set (ndays := nth (Z.to_nat m) mdays 0 + (if (m =? 2) && isleap y then 1 else 0)) in *.
  clearbody day1 ndays.
  assert (Hd : day1 = 0 \/ day1 = 1 \/ day1 = 2 \/ day1 = 3 \/ day1 = 4 \/ day1 = 5
               \/ day1 = 6) by lia.
  assert (Hk : ndays = 28 \/ ndays = 29 \/ ndays = 30 \/ ndays = 31) by lia.
  clear Hn Hw Hm.
  repeat (destruct Hd as [-> | Hd]); try subst day1;
    repeat (destruct Hk as [-> | Hk]); try subst ndays;
    (split; [intros Hne | intros He]; try lia; try (exfalso; lia);
     vm_compute; auto).
Qed.

(** ** Day-type classification *)

Lemma day_type_of_holiday d H F :
  d ∈ H -> day_type_of d H F = (0, "Holiday").
Proof. intros Hd. unfold day_type_of. now rewrite bool_decide_eq_true_2. Qed.

(** Every row of [classify_day_types] carries the type given by the priority
    chain for its date string. *)
Lemma classify_day_types_rows dates H row :
  In row (classify_day_types dates H) ->
  dt_day_type row
  = fst (day_type_of (strftime_ymd (dt_feature_date row)) H (festival_dates_of dates)).
Proof.
  unfold classify_day_types. intros Hin. apply in_map_iff in Hin.
  destruct Hin as [d [<- _]].
  destruct (day_type_of (strftime_ymd d) H (festival_dates_of dates)) as [t c] eqn:E.
  cbn. now rewrite E.
Qed.

(** C2. The classification looks the date up in the holiday set first, then
    in the festival set, and otherwise answers Normal (1); so a date that is
    both a holiday and a festival is typed Holiday (0), never Festival (2).
    Every row of [classify_day_types] is typed this way. *)
Theorem day_type_priority (d : string) (H F : gset string) :
  fst (day_type_of d H F)
  = (if decide (d ∈ H) then 0 else if decide (d ∈ F) then 2 else 1)
  /\ (d ∈ H -> d ∈ F ->
      fst (day_type_of d H F) = 0 /\ fst (day_type_of d H F) <> 2)
  /\ (forall dates row,
        In row (classify_day_types dates H) ->
        dt_day_type row
        = fst (day_type_of (strftime_ymd (dt_feature_date row)) H
                           (festival_dates_of dates))).
Proof.
  split; [| split].
  - unfold day_type_of.
    destruct (decide (d ∈ H)) as [Hh | Hh].
    + now rewrite bool_decide_eq_true_2.
    + rewrite (bool_decide_eq_false_2 _ Hh).
      destruct (decide (d ∈ F)) as [Hf | Hf].
      * now rewrite bool_decide_eq_true_2.
      * now rewrite bool_decide_eq_false_2.
  - intros Hh _. rewrite (day_type_of_holiday d H F Hh). cbn.
    split; [reflexivity | discriminate].
  - intros dates row. apply classify_day_types_rows.
Qed.

(** Songkran, 14 April 2025, is a festival date and a public holiday. *)
Lemma day_type_priority_witness :
  "2025-04-14" ∈ holidays_2025 /\ "2025-04-14" ∈ festivals_2025
  /\ fst (day_type_of "2025-04-14" holidays_2025 festivals_2025) = 0
  /\ fst (day_type_of "2025-04-14" holidays_2025 festivals_2025) <> 2
  /\ map dt_day_type
         (classify_day_types [mkDate 2025 4 14; mkDate 2025 4 15; mkDate 2025 4 16]
                             holidays_2025)
     = [0; 2; 1].
Proof.
  assert (Hh : "2025-04-14" ∈ holidays_2025) by (vm_compute; reflexivity).
  assert (Hf : "2025-04-14" ∈ festivals_2025) by (vm_compute; reflexivity).
  split; [exact Hh | split; [exact Hf |]].
  destruct (day_type_priority "2025-04-14" holidays_2025 festivals_2025)
    as (_ & Hprio & _).
  destruct (Hprio Hh Hf) as [H0 H2].
  split; [exact H0 | split; [exact H2 |]].
  vm_compute. reflexivity.
Defined.

(** ** The second Saturday *)

(** C3. January 2023 starts on a Sunday: its first calendar week holds no
    Saturday, its Saturdays are the 7th, 14th, 21st and 28th, and the second
    one is the 14th, in the third calendar week.  [get_second_saturday]
    answers the 7th.  For January 2025 it answers the 11th. *)
Theorem get_second_saturday_sunday_start :
  weekday 2023 1 1 = 6
  /\ saturdays 2023 1 = [7; 14; 21; 28]
  /\ conventional_second_saturday 2023 1 = 14
  /\ get_second_saturday 2023 1 = "2023-01-07"
  /\ get_second_saturday 2025 1 = "2025-01-11".
Proof. repeat split; vm_compute; reflexivity. Qed.

(** ** Transit normalisation: the Purple Line variants *)

(** C1. For one date with 100 riders under "รถไฟฟ้าสายสีม่วง" and 50 under
    "มวง-สาย", the pivot lists "มวง-สาย" first; the merge adds both into that
    column and drops the other; no key of [vehicle_mapping] occurs in the
    surviving name, so the emitted row keeps [mrt_purple = 0.0]: the sum 150
    is computed and then lost. *)
Theorem purple_variants_sum_is_lost :
  column_names (pivot_table (observations purple_batch))
  = ["มวง-สาย"; "รถไฟฟ้าสายสีม่วง"]
  /\ merge_groups line_groups
       (column_names (pivot_table (observations purple_batch)))
       (df_columns (pivot_table (observations purple_batch)))
     = Some [("มวง-สาย", [150%Q])]
  /\ target_of "มวง-สาย" = None
  /\ process_mot_data purple_batch = Returns [new_record (mkDate 2025 9 4)]
  /\ mrt_purple (new_record (mkDate 2025 9 4)) = Some 0%Q.
Proof. repeat split; vm_compute; reflexivity. Qed.

(** The same happens with the misspelling the keyword list anticipates:
    "รถไฟฟ้าสายสีมวง" sorts before "รถไฟฟ้าสายสีม่วง" and takes the sum with it. *)
Example purple_misspelling_sum_is_lost :
  process_mot_data
    [ mkRaw (Some (mkTs (mkDate 2025 9 4) 0)) (Some "รถไฟฟ้าสายสีม่วง") (Some 100%Q);
      mkRaw (Some (mkTs (mkDate 2025 9 4) 0)) (Some "รถไฟฟ้าสายสีมวง") (Some 50%Q) ]
  = Returns [new_record (mkDate 2025 9 4)].
Proof. vm_compute. reflexivity. Qed.

(** When the recognised spelling sorts first, the sum reaches [mrt_purple]. *)
Example purple_suffix_variant_is_summed :
  process_mot_data
    [ mkRaw (Some (mkTs (mkDate 2025 9 4) 0)) (Some "รถไฟฟ้าสายสีม่วง") (Some 100%Q);
      mkRaw (Some (mkTs (mkDate 2025 9 4) 0)) (Some "รถไฟฟ้าสายสีม่วง (ม่วง)") (Some 50%Q) ]
  = Returns [set_line MRT_PURPLE (Some 150%Q) (new_record (mkDate 2025 9 4))].
Proof. vm_compute. reflexivity. Qed.

(** ** The weekend check of the day-type report *)

(** The rows the check reports: stored [dow] 6 or 0, type neither 1 nor 2. *)
Lemma weekend_errors_spec rows r :
  In r (weekend_errors rows)
  <-> In r rows /\ (dow r = 6 \/ dow r = 0) /\ day_type r <> 1 /\ day_type r <> 2.
Proof.
  unfold weekend_errors. rewrite List.filter_In.
  rewrite andb_true_iff, orb_true_iff, negb_true_iff, orb_false_iff.
  rewrite !Z.eqb_eq, !Z.eqb_neq. tauto.
Qed.

(** C5. With [dow] stored as [process_mot_data] writes it (Monday 0 ...
    Sunday 6), a Saturday has [dow = 5].  A Saturday typed Holiday (0) is not
    reported and the verdict stays PASS, while a Monday typed Holiday is
    reported, under the name "Sunday". *)
Theorem weekend_check_misses_saturday :
  let today := mkDate 2025 9 8 in
  let sat := day_type_quality_report today (Some (mot_quality_report today saturday_store))
                                     saturday_store in
  let mon := day_type_quality_report today (Some (mot_quality_report today monday_store))
                                     monday_store in
  date_weekday (mkDate 2025 9 6) = 5
  /\ map (fun r => (dow r, day_type r)) (window_rows today saturday_store) = [(5, 0)]
  /\ dtq_classification_errors sat = []
  /\ dtq_status sat = PASS
  /\ date_weekday (mkDate 2025 9 8) = 0
  /\ dtq_classification_errors mon = ["Sunday 2025-09-08 classified as day_type=0"]
  /\ dtq_status mon = WARNING.
Proof. repeat split; vm_compute; reflexivity. Qed.

(** ** The transit quality score *)

Section Counting.

Context {A B : Type}.

Lemma length_insert_by (leb : A -> A -> bool) x l :
  length (insert_by leb x l) = S (length l).
Proof.
  induction l as [| y l IH]; cbn; [reflexivity |].
  destruct (leb x y); cbn; [reflexivity | now rewrite IH].
Qed.

Lemma length_sort_by (leb : A -> A -> bool) l : length (sort_by leb l) = length l.
Proof.
  unfold sort_by. induction l as [| x l IH]; cbn; [reflexivity |].
  now rewrite length_insert_by, IH.
Qed.

Lemma list_sum_cons (x : nat) (l : list nat) : list_sum (x :: l) = (x + list_sum l)%nat.
Proof. reflexivity. Qed.

Lemma count_cons (p : A -> B -> bool) (cols : list A) (r : B) (rows : list B) :
  list_sum (map (fun c => length (List.filter (p c) (r :: rows))) cols)
  = (length (List.filter (fun c => p c r) cols)
     + list_sum (map (fun c => length (List.filter (p c) rows)) cols))%nat.
Proof.
  induction cols as [| c cols IH]; [reflexivity |].
  cbn [map]. rewrite !list_sum_cons, IH. cbn [List.filter].
  destruct (p c r); cbn [length]; lia.
Qed.

(** Counting the pairs that satisfy [p] column by column or row by row. *)
Lemma count_swap (p : A -> B -> bool) (cols : list A) (rows : list B) :
  list_sum (map (fun c => length (List.filter (p c) rows)) cols)
  = list_sum (map (fun r => length (List.filter (fun c => p c r) cols)) rows).
Proof.
  induction rows as [| r rows IH].
  - induction cols as [| c cols IHc]; [reflexivity | exact IHc].
  - rewrite count_cons, IH. cbn [map]. now rewrite list_sum_cons.
Qed.

Lemma filter_disjoint_length (p q : A -> bool) l :
  (forall x, p x = true -> q x = false) ->
  (length (List.filter p l) + length (List.filter q l))%nat
  = length (List.filter (fun x => p x || q x) l).
Proof.
  intros Hd. induction l as [| x l IH]; cbn; [reflexivity |].
  specialize (Hd x). destruct (p x), (q x); cbn; try lia;
    try (specialize (Hd eq_refl); discriminate).
Qed.

End Counting.

Lemma Qltb_lt a b : Qltb a b = true <-> (a < b)%Q.
Proof.
  unfold Qltb. rewrite negb_true_iff. split.
  - intros H. apply Qnot_le_lt. intros Hle. apply Qle_bool_iff in Hle. congruence.
  - intros H. destruct (Qle_bool b a) eqn:E; [| reflexivity].
    apply Qle_bool_iff in E. exfalso. exact (Qlt_not_le _ _ H E).
Qed.

Lemma max0_Qmax x : (max0 x == Qmax 0 x)%Q.
Proof.
  unfold max0. destruct (Qltb 0 x) eqn:E.
  - apply Qltb_lt in E. symmetry. apply Q.max_r. now apply Qlt_le_weak.
  - symmetry. apply Q.max_l. apply Qnot_lt_le. intros H. apply Qltb_lt in H. congruence.
Qed.

(** The score as a function of the number of missing cells. *)
Lemma length_column_issues rows c :
  length (column_issues rows c)
  = length (List.filter (fun r => cell_missing (get_line c r)) rows).
Proof.
  unfold column_issues, order_by_feature_date.
  rewrite length_app, !length_map, !length_sort_by.
  rewrite filter_disjoint_length.
  - f_equal. apply List.filter_ext. intros r. unfold is_null, is_zero, cell_missing.
    now destruct (get_line c r).
  - intros r. unfold is_null, is_zero. now destruct (get_line c r).
Qed.

Lemma missing_data_total rows :
  list_sum (map (fun e => length (snd e)) (missing_data_of rows)) = missing_cells rows.
Proof.
  unfold missing_cells. rewrite <- count_swap.
  unfold missing_data_of.
  induction transport_columns as [| c cols IH]; [reflexivity |].
  cbn [flat_map map]. rewrite map_app, list_sum_app, IH, list_sum_cons.
  rewrite <- length_column_issues.
  f_equal. destruct (column_issues rows c); cbn; lia.
Qed.

Lemma is_nil_flat_map {A B} (f : A -> list B) l :
  is_nil_b (flat_map f l) = forallb (fun x => is_nil_b (f x)) l.
Proof.
  induction l as [| x l IH]; cbn; [reflexivity |].
  destruct (f x); cbn; [exact IH | reflexivity].
Qed.

Lemma is_nil_omap {A B} (f : A -> option B) l :
  is_nil_b (omap f l) = forallb (fun x => negb (is_Some_b (f x))) l.
Proof.
  induction l as [| x l IH]; cbn; [reflexivity |].
  destruct (f x); cbn; [reflexivity | exact IH].
Qed.

Lemma anomalies_any rows :
  negb (is_nil_b (flat_map (column_anomalies rows) transport_columns)) = any_anomaly rows.
Proof.
  rewrite is_nil_flat_map. unfold any_anomaly.
  destruct (existsb _ rows) eqn:E.
  - apply existsb_exists in E. destruct E as [r [Hr Hex]].
    apply existsb_exists in Hex. destruct Hex as [c [Hc Ha]].
    apply negb_true_iff, not_true_iff_false. intros Hall.
    rewrite forallb_forall in Hall. specialize (Hall c Hc).
    unfold column_anomalies in Hall.
    rewrite is_nil_omap, forallb_forall in Hall. specialize (Hall r Hr).
    unfold cell_anomalous in Ha. destruct (get_line c r); [| discriminate].
    rewrite Ha in Hall. discriminate.
  - apply negb_false_iff, forallb_forall. intros c Hc.
    unfold column_anomalies. rewrite is_nil_omap. apply forallb_forall. intros r Hr.
    destruct (get_line c r) as [v |] eqn:Ev; [| reflexivity].
    destruct (Qltb (inject_Z (anomaly_threshold c)) v || Qltb v 0) eqn:Et; [| reflexivity].
    exfalso. apply not_true_iff_false in E. apply E. apply existsb_exists.
    exists r. split; [exact Hr |]. apply existsb_exists.
    exists c. split; [exact Hc |]. unfold cell_anomalous. now rewrite Ev.
Qed.

Lemma score_below_threshold m :
  (max0 (inject_Z (49 - m) / inject_Z 49) < 8 # 10)%Q <-> 10 <= m.
Proof.
  unfold max0. destruct (Qltb 0 _) eqn:E.
  - apply Qltb_lt in E. unfold Qlt in *. cbn in *. lia.
  - apply not_true_iff_false in E. rewrite Qltb_lt in E.
    unfold Qlt in *. cbn in *. lia.
Qed.

(** The two report fields in closed form. *)
Lemma mot_quality_report_fields today S :
  let rows := window_rows today S in
  let m := Z.of_nat (missing_cells rows) in
  let q := mot_quality_report today S in
  mot_quality_score q = max0 (inject_Z (49 - m) / inject_Z 49)
  /\ mot_status q
     = (if Qltb (mot_quality_score q) (8 # 10) then FAIL
        else if any_anomaly rows || (0 <? m) then WARNING else PASS).
Proof.
  cbv zeta. unfold mot_quality_report. cbn [mot_quality_score mot_status].
  rewrite missing_data_total, anomalies_any.
  change (7 * Z.of_nat (length transport_columns)) with 49.
  split; reflexivity.
Qed.

(** C4. Over the window, with seven tracked columns, the score of the transit
    report is max(0, (49 - missing cells) / 49); the verdict is FAIL exactly
    when the score is below 0.8, else WARNING when a cell is anomalous or
    missing, else PASS.  The score is below 0.8 exactly from ten missing cells
    on, and ten missing cells give 39/49 and FAIL. *)
Theorem mot_quality_score_and_verdict (today : Date) (S : Store) :
  let rows := window_rows today S in
  let q := mot_quality_report today S in
  let m := Z.of_nat (missing_cells rows) in
  (mot_quality_score q == Qmax 0 (inject_Z (49 - m) / inject_Z 49))%Q
  /\ (mot_status q = FAIL <-> (mot_quality_score q < 8 # 10)%Q)
  /\ (mot_status q = WARNING
      <-> ~ (mot_quality_score q < 8 # 10)%Q /\ (any_anomaly rows = true \/ 0 < m))
  /\ (mot_status q = PASS
      <-> ~ (mot_quality_score q < 8 # 10)%Q /\ any_anomaly rows = false /\ m = 0)
  /\ ((mot_quality_score q < 8 # 10)%Q <-> 10 <= m)
  /\ (m = 10 -> (mot_quality_score q == 39 # 49)%Q /\ mot_status q = FAIL).
Proof.
  intros rows q m.
  destruct (mot_quality_report_fields today S) as [Hs Hv].
  fold rows q m in Hs, Hv.
  assert (Hm : 0 <= m) by (unfold m; lia).
  assert (Hthr : (mot_quality_score q < 8 # 10)%Q <-> 10 <= m)
    by (rewrite Hs; apply score_below_threshold).
  assert (Hor : any_anomaly rows || (0 <? m) = true <-> any_anomaly rows = true \/ 0 < m)
    by (rewrite orb_true_iff, Z.ltb_lt; reflexivity).
  assert (Hnor : any_anomaly rows || (0 <? m) = false <-> any_anomaly rows = false /\ m = 0)
    by (rewrite orb_false_iff, Z.ltb_ge; intuition lia).
  destruct (Qltb (mot_quality_score q) (8 # 10)) eqn:Eb.
  - assert (Hb : (mot_quality_score q < 8 # 10)%Q) by (now apply Qltb_lt).
    split; [rewrite Hs; apply max0_Qmax |].
    split; [split; [intros _; exact Hb | intros _; exact Hv] |].
    split; [split; [intros Hw; congruence | intros [Hn _]; contradiction] |].
    split; [split; [intros Hw; congruence | intros [Hn _]; contradiction] |].
    split; [exact Hthr |].
    intros Hten. split; [rewrite Hs, Hten; reflexivity | exact Hv].
  - assert (Hb : ~ (mot_quality_score q < 8 # 10)%Q)
      by (intros Hx; apply Qltb_lt in Hx; congruence).
    split; [rewrite Hs; apply max0_Qmax |].
    destruct (any_anomaly rows || (0 <? m)) eqn:Eo.
    + split; [split; [intros Hw; congruence | intros Hx; contradiction] |].
      split; [split; [intros _; split; [exact Hb | now apply Hor] | intros _; exact Hv] |].
      split; [split; [intros Hw; congruence
                     | intros [_ Hx]; apply Hnor in Hx; congruence] |].
      split; [exact Hthr |].
      intros Hten. exfalso. apply Hb, Hthr. lia.
    + split; [split; [intros Hw; congruence | intros Hx; contradiction] |].
      split; [split; [intros Hw; congruence
                     | intros [_ Hx]; apply Hor in Hx; congruence] |].
      split; [split; [intros _; split; [exact Hb | now apply Hnor] | intros _; exact Hv] |].
      split; [exact Hthr |].
      intros Hten. exfalso. apply Hb, Hthr. lia.
Qed.

Lemma mot_quality_score_and_verdict_witness :
  Z.of_nat (missing_cells (window_rows (mkDate 2025 9 8) ten_missing_store)) = 10
  /\ (mot_quality_score (mot_quality_report (mkDate 2025 9 8) ten_missing_store)
      == 39 # 49)%Q
  /\ mot_status (mot_quality_report (mkDate 2025 9 8) ten_missing_store) = FAIL.
Proof.
  assert (H10 : Z.of_nat (missing_cells (window_rows (mkDate 2025 9 8) ten_missing_store))
                = 10) by (vm_compute; reflexivity).
  split; [exact H10 |].
  exact (proj2 (proj2 (proj2 (proj2 (proj2
           (mot_quality_score_and_verdict (mkDate 2025 9 8) ten_missing_store))))) H10).
Defined.

(** ** Placeholder-guarded updates *)

Section GuardedUpdates.

Context {V : Type}.
Variable guard : Row -> bool.
Variable upd : V -> Row -> Row.

(** An assignment that leaves the placeholder in place changes nothing. *)
Hypothesis upd_placeholder :
  forall v r, guard r = true -> guard (upd v r) = true -> upd v r = r.

(** A second assignment over a first one is the second assignment alone. *)
Hypothesis upd_upd : forall v w r, upd w (upd v r) = upd w r.

Lemma guarded_update_lookup S d v d' :
  guarded_update guard upd S d v !! d' = S !! d'
  \/ (d' = d /\ exists r, S !! d = Some r /\ guard r = true
                          /\ guarded_update guard upd S d v !! d = Some (upd v r)).
Proof.
  unfold guarded_update. destruct (S !! d) as [r |] eqn:E; [| now left].
  destruct (guard r) eqn:G; [| now left].
  destruct (decide (d' = d)) as [-> | Hne].
  - right. split; [reflexivity |]. exists r. now rewrite lookup_insert_eq.
  - left. now rewrite lookup_insert_ne.
Qed.

(** Frame: a row is either as before, or it carried the placeholder and got
    the value of one of the fragments for its date. *)
Lemma guarded_updates_lookup batch S d :
  guarded_updates guard upd batch S !! d = S !! d
  \/ exists r v, S !! d = Some r /\ guard r = true /\ In (d, v) batch
                 /\ guarded_updates guard upd batch S !! d = Some (upd v r).
Proof.
  unfold guarded_updates. revert S.
  induction batch as [| [d0 v0] batch IH]; intros S; cbn [fold_left fst snd]; [now left |].
  destruct (IH (guarded_update guard upd S d0 v0)) as [Heq | [r1 [v1 [H1 [G1 [Hin Hl]]]]]];
    destruct (guarded_update_lookup S d0 v0 d) as [Hs | [-> [r [Hr [G Hu]]]]].
  - left. congruence.
  - right. exists r, v0. repeat split; auto; [now left | congruence].
  - right. exists r1, v1. repeat split; auto; [congruence | now right].
  - right. exists r, v1. rewrite Hu in H1. inversion H1; subst r1.
    repeat split; auto; [now right |]. now rewrite Hl, upd_upd.
Qed.

(** A row without the placeholder is never changed. *)
Lemma guarded_updates_unguarded batch S d r :
  S !! d = Some r -> guard r = false ->
  guarded_updates guard upd batch S !! d = Some r.
Proof.
  intros Hr G.
  destruct (guarded_updates_lookup batch S d) as [-> | [r' [v [Hr' [G' _]]]]]; [exact Hr |].
  congruence.
Qed.

(** After the batch, a fragment whose assignment removes the placeholder
    finds its row without it. *)
Lemma guarded_updates_settled batch S d v r :
  In (d, v) batch ->
  (forall r0, guard (upd v r0) = false) ->
  guarded_updates guard upd batch S !! d = Some r -> guard r = false.
Proof.
  unfold guarded_updates. revert S.
  induction batch as [| [d0 v0] batch IH]; intros S Hin Hv Hl; [destruct Hin |].
  cbn [fold_left fst snd] in Hl. destruct Hin as [Heq | Hin]; [| now apply (IH _ Hin Hv Hl)].
  inversion Heq; subst d0 v0. clear Heq IH.
  fold (guarded_updates guard upd batch (guarded_update guard upd S d v)) in Hl.
  destruct (guard r) eqn:G; [| reflexivity]. exfalso.
  destruct (guarded_updates_lookup batch (guarded_update guard upd S d v) d)
    as [Heq | [r1 [v1 [H1 [G1 [_ Hl1]]]]]].
  - rewrite Hl in Heq. symmetry in Heq.
    unfold guarded_update in Heq. destruct (S !! d) as [r0 |] eqn:E; [| congruence].
    destruct (guard r0) eqn:G0.
    + rewrite lookup_insert_eq in Heq. inversion Heq; subst r.
      rewrite Hv in G. discriminate.
    + congruence.
  - unfold guarded_update in H1. destruct (S !! d) as [r0 |] eqn:E; [| congruence].
    destruct (guard r0) eqn:G0.
    + rewrite lookup_insert_eq in H1. inversion H1; subst r1.
      rewrite Hv in G1. discriminate.
    + congruence.
Qed.

(** Whether an assignment removes the placeholder depends on the assigned
    value only. *)
Hypothesis upd_guard :
  forall v, (forall r, guard (upd v r) = false) \/ (forall r, guard (upd v r) = true).

Lemma guarded_updates_fixed batch S :
  (forall d v, In (d, v) batch -> guarded_update guard upd S d v = S) ->
  guarded_updates guard upd batch S = S.
Proof.
  unfold guarded_updates.
  induction batch as [| [d v] batch IH]; intros Hfix; [reflexivity |].
  cbn [fold_left fst snd]. rewrite (Hfix d v) by now left.
  apply IH. intros d' v' Hin. apply Hfix. now right.
Qed.

(** Applying a batch a second time changes nothing. *)
Lemma guarded_updates_idempotent batch S :
  guarded_updates guard upd batch (guarded_updates guard upd batch S)
  = guarded_updates guard upd batch S.
Proof.
  apply guarded_updates_fixed. intros d v Hin.
  unfold guarded_update.
  destruct (guarded_updates guard upd batch S !! d) as [r |] eqn:E; [| reflexivity].
  destruct (guard r) eqn:G; [| reflexivity].
  destruct (upd_guard v) as [Hv | Hv].
  - rewrite (guarded_updates_settled batch S d v r Hin Hv E) in G. discriminate.
  - rewrite (upd_placeholder v r G (Hv r)). now apply insert_id.
Qed.

End GuardedUpdates.

Lemma update_day_type_row_guarded S d t :
  fst (update_day_type_row S d t) = guarded_update day_type_pending set_day_type S d t.
Proof.
  unfold update_day_type_row, guarded_update, day_type_pending.
  destruct (S !! d) as [r |]; [| reflexivity]. now destruct (day_type r =? -1).
Qed.

Lemma update_rain_row_guarded S d v :
  fst (update_rain_row S d v) = guarded_update rain_pending set_rain_value S d v.
Proof.
  unfold update_rain_row, guarded_update, rain_pending, set_rain_value.
  destruct (S !! d) as [r |]; [| reflexivity]. now destruct (rain_average r).
Qed.

Lemma update_day_type_loop_guarded batch S (n : nat) :
  fst (fold_left (fun acc row =>
                    let '(S', k) := update_day_type_row (fst acc) (fst row) (snd row) in
                    (S', (snd acc + (if (0 <? k)%nat then 1 else 0))%nat))
                 batch (S, n))
  = guarded_updates day_type_pending set_day_type batch S.
Proof.
  unfold guarded_updates. revert S n.
  induction batch as [| [d t] batch IH]; intros S n; [reflexivity |].
  cbn [fold_left fst snd]. rewrite <- update_day_type_row_guarded.
  destruct (update_day_type_row S d t) as [S' k]. apply IH.
Qed.

Lemma update_rain_loop_guarded batch S (n : nat) :
  fst (fold_left (fun acc row =>
                    let '(S', k) := update_rain_row (fst acc) (fst row) (snd row) in
                    (S', (snd acc + (if (0 <? k)%nat then 1 else 0))%nat))
                 batch (S, n))
  = guarded_updates rain_pending set_rain_value batch S.
Proof.
  unfold guarded_updates. revert S n.
  induction batch as [| [d v] batch IH]; intros S n; [reflexivity |].
  cbn [fold_left fst snd]. rewrite <- update_rain_row_guarded.
  destruct (update_rain_row S d v) as [S' k]. apply IH.
Qed.

Lemma update_day_type_rows_guarded batch S :
  fst (update_day_type_rows batch S) = guarded_updates day_type_pending set_day_type batch S.
Proof. apply update_day_type_loop_guarded. Qed.

Lemma update_rain_rows_guarded batch S :
  fst (update_rain_rows batch S) = guarded_updates rain_pending set_rain_value batch S.
Proof. apply update_rain_loop_guarded. Qed.

Lemma update_day_type_in_db_guarded batch S :
  fst (update_day_type_in_db batch S) = guarded_updates day_type_pending set_day_type batch S.
Proof.
  destruct batch as [| row batch]; [reflexivity |].
  unfold update_day_type_in_db. cbn [fst]. apply update_day_type_rows_guarded.
Qed.

Lemma update_rain_average_in_db_guarded batch S :
  fst (update_rain_average_in_db batch S) = guarded_updates rain_pending set_rain_value batch S.
Proof.
  destruct batch as [| row batch]; [reflexivity |].
  unfold update_rain_average_in_db. cbn [fst]. apply update_rain_rows_guarded.
Qed.

Lemma set_day_type_twice t w r : set_day_type w (set_day_type t r) = set_day_type w r.
Proof. reflexivity. Qed.

Lemma set_rain_value_twice v w r : set_rain_value w (set_rain_value v r) = set_rain_value w r.
Proof. reflexivity. Qed.

Lemma set_day_type_placeholder t r :
  day_type_pending r = true -> day_type_pending (set_day_type t r) = true ->
  set_day_type t r = r.
Proof.
  unfold day_type_pending. cbn. rewrite !Z.eqb_eq. intros Hr ->.
  destruct r; cbn in *. now subst.
Qed.

Lemma set_day_type_guard t :
  (forall r, day_type_pending (set_day_type t r) = false)
  \/ (forall r, day_type_pending (set_day_type t r) = true).
Proof. unfold day_type_pending. cbn. destruct (t =? -1); auto. Qed.

Lemma set_rain_value_guard v r : rain_pending (set_rain_value v r) = false.
Proof. reflexivity. Qed.

(** C7. A day-type fragment changes a stored row only if the row still has
    [day_type = -1], and then only its [day_type], to the value of a fragment
    for that date; a rain fragment changes a row only if its [rain_average]
    is still NULL, and then only its [rain_average].  Every other row, and
    every other column, is as before; no row appears or disappears. *)
Theorem placeholder_updates_frame (S : Store) (d : Date) :
  (forall day_type_data : list (Date * Z),
      let S' := fst (update_day_type_in_db day_type_data S) in
      S' !! d = S !! d
      \/ exists r r', S !! d = Some r /\ S' !! d = Some r'
                      /\ day_type r = -1 /\ In (d, day_type r') day_type_data
                      /\ agree_except_day_type r r')
  /\ (forall rain_data : list (Date * Q),
      let S' := fst (update_rain_average_in_db rain_data S) in
      S' !! d = S !! d
      \/ exists r r' v, S !! d = Some r /\ S' !! d = Some r'
                        /\ rain_average r = None /\ In (d, v) rain_data
                        /\ rain_average r' = Some v
                        /\ agree_except_rain_average r r').
Proof.
  split.
  - intros batch S'. subst S'. rewrite update_day_type_in_db_guarded.
    destruct (guarded_updates_lookup day_type_pending set_day_type set_day_type_twice
                batch S d) as [Heq | [r [t [Hr [G [Hin Hl]]]]]]; [now left |].
    right. exists r, (set_day_type t r). repeat split; auto.
    unfold day_type_pending in G. now apply Z.eqb_eq in G.
  - intros batch S'. subst S'. rewrite update_rain_average_in_db_guarded.
    destruct (guarded_updates_lookup rain_pending set_rain_value set_rain_value_twice
                batch S d) as [Heq | [r [v [Hr [G [Hin Hl]]]]]]; [now left |].
    right. exists r, (set_rain_value v r), v. repeat split; auto.
    unfold rain_pending in G. now destruct (rain_average r).
Qed.

(** ** The transit upsert *)

(** After a sequence of upserts, a date holds the last row proposed for it,
    or what it held before. *)
Lemma upsert_fold_lookup (l : list Row) (S : Store) (d : Date) :
  fold_left upsert_row l S !! d
  = match find (fun r => bool_decide (feature_date r = d)) (rev l) with
    | Some r => Some r
    | None => S !! d
    end.
Proof.
  induction l as [| x l IH] using rev_ind; [reflexivity |].
  rewrite fold_left_app, rev_app_distr. cbn [fold_left rev app find].
  unfold upsert_row at 1. destruct (decide (feature_date x = d)) as [Hd | Hd].
  - rewrite (bool_decide_eq_true_2 _ Hd). subst d. now rewrite lookup_insert_eq.
  - rewrite (bool_decide_eq_false_2 _ Hd). now rewrite lookup_insert_ne.
Qed.

Lemma upsert_fold_idempotent (l : list Row) (S : Store) :
  fold_left upsert_row l (fold_left upsert_row l S) = fold_left upsert_row l S.
Proof.
  apply map_eq. intros d. rewrite !upsert_fold_lookup.
  now destruct (find _ (rev l)).
Qed.

(** The pages either all pass, and the rows are upserted in order, or one of
    them is rejected; which of the two depends on the batch alone. *)
Lemma execute_pages_spec (pages : list (list Row)) (S : Store) :
  execute_pages pages S
  = if forallb (fun page => bool_decide (NoDup (map feature_date page))) pages
    then Some (fold_left upsert_row (concat pages) S)
    else None.
Proof.
  revert S. induction pages as [| page pages IH]; intros S; [reflexivity |].
  cbn [execute_pages forallb concat]. unfold execute_page.
  destruct (bool_decide (NoDup (map feature_date page))); cbn [andb]; [| reflexivity].
  now rewrite IH, fold_left_app.
Qed.

Lemma insert_new_data_idempotent (df : list Row) (S : Store) :
  fst (insert_new_data df (fst (insert_new_data df S))) = fst (insert_new_data df S).
Proof.
  unfold insert_new_data, execute_values.
  destruct (sort_by row_leb df) as [| r rows]; [reflexivity |].
  rewrite (execute_pages_spec _ S).
  destruct (forallb _ (chunks 100 (r :: rows))) eqn:E; cbn [fst].
  - rewrite execute_pages_spec, E. cbn [fst]. apply upsert_fold_idempotent.
  - rewrite execute_pages_spec, E. reflexivity.
Qed.

(** C6. Applying a batch twice leaves the table as applying it once does: for
    the unconditional transit upsert, for the rain update and for the
    day-type update. *)
Theorem upsert_idempotent (S : Store) :
  (forall df : list Row,
      fst (insert_new_data df (fst (insert_new_data df S)))
      = fst (insert_new_data df S))
  /\ (forall rain_data : list (Date * Q),
      fst (update_rain_average_in_db rain_data
             (fst (update_rain_average_in_db rain_data S)))
      = fst (update_rain_average_in_db rain_data S))
  /\ (forall day_type_data : list (Date * Z),
      fst (update_day_type_in_db day_type_data
             (fst (update_day_type_in_db day_type_data S)))
      = fst (update_day_type_in_db day_type_data S)).
Proof.
  split; [intros df; apply insert_new_data_idempotent |].
  split.
  - intros batch. rewrite !update_rain_average_in_db_guarded.
    apply guarded_updates_idempotent.
    + intros v r _ G. rewrite set_rain_value_guard in G. discriminate.
    + apply set_rain_value_twice.
    + intros v. left. apply set_rain_value_guard.
  - intros batch. rewrite !update_day_type_in_db_guarded.
    apply guarded_updates_idempotent.
    + apply set_day_type_placeholder.
    + apply set_day_type_twice.
    + apply set_day_type_guard.
Qed.

(** ** The branching pipeline *)

Lemma schedule_stages :
  schedule
  = [start_weekly_data_collection; collect_mot_transport_data; mot_quality_check]
    ++ [mot_quality_failed; collect_rain_weather_data; rain_quality_check]
    ++ [rain_quality_failed; collect_day_type_data; day_type_quality_check]
    ++ [day_type_quality_failed; final_quality_validation; pipeline_success;
        end_weekly_data_collection].
Proof. reflexivity. Qed.

(** C8. In a run of the DAG, each quality check sends the run to its
    [*_quality_failed] task when its verdict is FAIL and to the next stage
    otherwise (PASS or WARNING); after a FAIL only the failed task and the
    end task run: no later collection or quality check does. *)
Theorem quality_fail_aborts (today : Date)
    (collect_mot collect_rain collect_day_type : Store -> Store) (S : Store) :
  let S1 := collect_mot S in
  let q1 := mot_quality_report today S1 in
  let S2 := collect_rain S1 in
  let q2 := rain_quality_report today (Some q1) S2 in
  let S3 := collect_day_type S2 in
  let q3 := day_type_quality_report today (Some q1) S3 in
  let r := run_dag today collect_mot collect_rain collect_day_type S in
  if decide (mot_status q1 = FAIL) then
    snd (check_mot_data_quality today S1) = mot_quality_failed
    /\ ran r = [start_weekly_data_collection; collect_mot_transport_data;
                mot_quality_check; mot_quality_failed; end_weekly_data_collection]
  else
    snd (check_mot_data_quality today S1) = collect_rain_weather_data
    /\ if decide (rain_status q2 = FAIL) then
         snd (check_rain_data_quality today (Some q1) S2) = rain_quality_failed
         /\ ran r = [start_weekly_data_collection; collect_mot_transport_data;
                     mot_quality_check; collect_rain_weather_data; rain_quality_check;
                     rain_quality_failed; end_weekly_data_collection]
       else
         snd (check_rain_data_quality today (Some q1) S2) = collect_day_type_data
         /\ if decide (dtq_status q3 = FAIL) then
              snd (check_day_type_data_quality today (Some q1) S3)
              = day_type_quality_failed
              /\ ran r = [start_weekly_data_collection; collect_mot_transport_data;
                          mot_quality_check; collect_rain_weather_data;
                          rain_quality_check; collect_day_type_data;
                          day_type_quality_check; day_type_quality_failed;
                          end_weekly_data_collection]
            else
              snd (check_day_type_data_quality today (Some q1) S3)
              = final_quality_validation
              /\ ran r = [start_weekly_data_collection; collect_mot_transport_data;
                          mot_quality_check; collect_rain_weather_data;
                          rain_quality_check; collect_day_type_data;
                          day_type_quality_check; final_quality_validation;
                          pipeline_success; end_weekly_data_collection].
Proof.
  intros S1 q1 S2 q2 S3 q3 r. subst r.
  unfold run_dag. rewrite schedule_stages.
  set (step' := step today collect_mot collect_rain collect_day_type).
  rewrite fold_left_app.
  assert (H1 : fold_left step'
                 [start_weekly_data_collection; collect_mot_transport_data;
                  mot_quality_check] (mkRunState S None None None [])
               = mkRunState S1 (Some q1) None None
                   (branch_states mot_quality_check
                      (if decide (mot_status q1 = FAIL)
                       then mot_quality_failed else collect_rain_weather_data)
                      [(collect_mot_transport_data, success);
                       (start_weekly_data_collection, success)])) by reflexivity.
  rewrite H1. clear H1.
  unfold check_mot_data_quality. cbn [snd]. fold q1.
  subst q2 q3. clearbody q1.
  destruct (decide (mot_status q1 = FAIL)) as [E1 | E1].
  { split; reflexivity. }
  split; [reflexivity |].
  set (q2 := rain_quality_report today (Some q1) S2).
  set (q3 := day_type_quality_report today (Some q1) S3).
  rewrite fold_left_app.
  assert (H2 : fold_left step'
                 [mot_quality_failed; collect_rain_weather_data; rain_quality_check]
                 (mkRunState S1 (Some q1) None None
                    (branch_states mot_quality_check collect_rain_weather_data
                       [(collect_mot_transport_data, success);
                        (start_weekly_data_collection, success)]))
               = mkRunState S2 (Some q1) (Some q2) None
                   (branch_states rain_quality_check
                      (if decide (rain_status q2 = FAIL)
                       then rain_quality_failed else collect_day_type_data)
                      [(collect_rain_weather_data, success);
                       (mot_quality_failed, skipped);
                       (mot_quality_check, success);
                       (collect_mot_transport_data, success);
                       (start_weekly_data_collection, success)])) by reflexivity.
  rewrite H2. clear H2.
  unfold check_rain_data_quality. cbn [snd]. fold q2.
  subst q3. clearbody q2.
  destruct (decide (rain_status q2 = FAIL)) as [E2 | E2].
  { split; reflexivity. }
  split; [reflexivity |].
  set (q3 := day_type_quality_report today (Some q1) S3).
  rewrite fold_left_app.
  assert (H3 : fold_left step'
                 [rain_quality_failed; collect_day_type_data; day_type_quality_check]
                 (mkRunState S2 (Some q1) (Some q2) None
                    (branch_states rain_quality_check collect_day_type_data
                       [(collect_rain_weather_data, success);
                        (mot_quality_failed, skipped);
                        (mot_quality_check, success);
                        (collect_mot_transport_data, success);
                        (start_weekly_data_collection, success)]))
               = mkRunState S3 (Some q1) (Some q2) (Some q3)
                   (branch_states day_type_quality_check
                      (if decide (dtq_status q3 = FAIL)
                       then day_type_quality_failed else final_quality_validation)
                      [(collect_day_type_data, success);
                       (rain_quality_failed, skipped);
                       (rain_quality_check, success);
                       (collect_rain_weather_data, success);
                       (mot_quality_failed, skipped);
                       (mot_quality_check, success);
                       (collect_mot_transport_data, success);
                       (start_weekly_data_collection, success)])) by reflexivity.
  rewrite H3. clear H3.
  unfold check_day_type_data_quality. cbn [snd]. fold q3.
  clearbody q3.
  destruct (decide (dtq_status q3 = FAIL)) as [E3 | E3]; split; reflexivity.
Qed.

(** ** The empty table *)

(** [None] is the answer for the empty table and for no other. *)
Lemma max_date_None l : max_date l = None <-> l = [].
Proof.
  destruct l as [| d l]; [tauto |].
  split; [| discriminate]. cbn [max_date foldr].
  fold (max_date l). destruct (max_date l) as [m |]; [| discriminate].
  destruct (date_ltb m d); discriminate.
Qed.

(** [None] is the answer for the empty table and for no other. *)
Lemma get_latest_date_from_db_None (S : Store) :
  get_latest_date_from_db S = None <-> S = ∅.
Proof.
  unfold get_latest_date_from_db. rewrite max_date_None.
  rewrite <- (map_to_list_empty_iff S).
  split; [| now intros ->]. now destruct (map_to_list S).
Qed.

(** C9, as the code has it.  On an empty table [get_latest_date_from_db]
    answers [None], and [main] then returns [False] at once: it sends no
    request to the API and leaves the table empty. *)
Theorem empty_store_stops_main (api : Api) (today : Date) :
  get_latest_date_from_db ∅ = None
  /\ main api today ∅ = mkRun (Some false) ∅ [].
Proof. split; reflexivity. Qed.

(** C9, as stated, fails: with an API that holds data for every month, a run
    on the empty table requests nothing and stores nothing. *)
Lemma empty_store_no_backfill :
  example_api 2025 10 <> None
  /\ ~ (exists ym, In ym (run_requests (main example_api (mkDate 2025 10 1) ∅)))
  /\ run_store (main example_api (mkDate 2025 10 1) ∅) = ∅
  /\ run_result (main example_api (mkDate 2025 10 1) ∅) = Some false.
Proof.
  split; [discriminate |]. split; [| split; reflexivity].
  intros [ym Hin]. exact Hin.
Qed.

(** ** Rows emitted by the transit normalisation *)

Lemma date_ltb_iff a b :
  date_ltb a b = true
  <-> year a < year b
      \/ (year a = year b
          /\ (month a < month b \/ (month a = month b /\ day a < day b))).
Proof.
  unfold date_ltb.
  rewrite !orb_true_iff, !andb_true_iff, !orb_true_iff, !andb_true_iff.
  rewrite !Z.ltb_lt, !Z.eqb_eq. reflexivity.
Qed.

Lemma date_ltb_irrefl a : date_ltb a a = false.
Proof. apply not_true_iff_false. rewrite date_ltb_iff. lia. Qed.

Lemma date_ltb_trans a b c :
  date_ltb a b = true -> date_ltb b c = true -> date_ltb a c = true.
Proof. rewrite !date_ltb_iff. lia. Qed.

Lemma date_leb_total a b : date_leb a b = false -> date_leb b a = true.
Proof.
  unfold date_leb. rewrite negb_false_iff, negb_true_iff.
  intros H. apply not_true_iff_false. intros H'.
  rewrite date_ltb_iff in H, H'. lia.
Qed.

Lemma ts_ltb_trans a b c :
  ts_ltb a b = true -> ts_ltb b c = true -> ts_ltb a c = true.
Proof.
  unfold ts_ltb.
  rewrite !orb_true_iff, !andb_true_iff, !negb_true_iff, <- !not_true_iff_false.
  rewrite !date_ltb_iff, !Z.ltb_lt. lia.
Qed.

Section Sorting.

Context {A : Type}.

(** Insertion sort sorts, for a total comparison. *)
Lemma insert_by_sorted (leb : A -> A -> bool) x l :
  (forall a b, leb a b = false -> leb b a = true) ->
  Sorted (fun a b => leb a b = true) l ->
  Sorted (fun a b => leb a b = true) (insert_by leb x l).
Proof.
  intros Htot. induction l as [| z l IH]; intros Hs; cbn.
  - repeat constructor.
  - destruct (leb x z) eqn:E.
    + constructor; [exact Hs | now constructor].
    + inversion Hs as [| ? ? Hs' Hhd]; subst.
      constructor; [now apply IH |].
      destruct l as [| w l]; cbn.
      * constructor. now apply Htot.
      * destruct (leb x w); constructor; [now apply Htot |].
        now inversion Hhd.
Qed.

Lemma sort_by_sorted (leb : A -> A -> bool) l :
  (forall a b, leb a b = false -> leb b a = true) ->
  Sorted (fun a b => leb a b = true) (sort_by leb l).
Proof.
  intros Htot. unfold sort_by. induction l as [| x l IH]; cbn; [constructor |].
  now apply insert_by_sorted.
Qed.

Lemma in_insert_uniq (ltb : A -> A -> bool) x y l :
  In y (insert_uniq ltb x l) -> y = x \/ In y l.
Proof.
  induction l as [| z l IH]; cbn; [intuition |].
  destruct (ltb x z); cbn; [intuition |].
  destruct (ltb z x); cbn; [| intuition].
  intros [-> | H]; [now right; left |]. destruct (IH H); auto.
Qed.

Lemma in_sort_uniq (ltb : A -> A -> bool) y l : In y (sort_uniq ltb l) -> In y l.
Proof.
  unfold sort_uniq. induction l as [| x l IH]; cbn; [tauto |].
  intros H. apply in_insert_uniq in H. destruct H as [-> | H]; auto.
Qed.

(** The distinct keys come out strictly increasing. *)
Lemma insert_uniq_sorted (ltb : A -> A -> bool) x l :
  (forall a b c, ltb a b = true -> ltb b c = true -> ltb a c = true) ->
  StronglySorted (fun a b => ltb a b = true) l ->
  StronglySorted (fun a b => ltb a b = true) (insert_uniq ltb x l).
Proof.
  intros Htr. induction l as [| z l IH]; intros Hs; cbn.
  - repeat constructor.
  - inversion Hs as [| ? ? Hs' Hall]; subst.
    destruct (ltb x z) eqn:E1.
    + constructor; [exact Hs |]. constructor; [exact E1 |].
      rewrite List.Forall_forall in Hall |- *. intros w Hw.
      apply (Htr x z w E1). now apply Hall.
    + destruct (ltb z x) eqn:E2; [| exact Hs].
      constructor; [now apply IH |].
      apply List.Forall_forall. intros w Hw. apply in_insert_uniq in Hw.
      destruct Hw as [-> | Hw]; [exact E2 |].
      rewrite List.Forall_forall in Hall. now apply Hall.
Qed.

Lemma sort_uniq_sorted (ltb : A -> A -> bool) l :
  (forall a b c, ltb a b = true -> ltb b c = true -> ltb a c = true) ->
  StronglySorted (fun a b => ltb a b = true) (sort_uniq ltb l).
Proof.
  intros Htr. unfold sort_uniq. induction l as [| x l IH]; cbn; [constructor |].
  now apply insert_uniq_sorted.
Qed.

End Sorting.

Section SortedFacts.

Context {A B : Type}.

Lemma sort_by_sorted_id (leb : A -> A -> bool) l :
  Sorted (fun a b => leb a b = true) l -> sort_by leb l = l.
Proof.
  unfold sort_by. induction l as [| x l IH]; intros Hs; [reflexivity |].
  inversion Hs as [| ? ? Hs' Hhd]; subst. cbn [foldr]. rewrite (IH Hs').
  destruct l as [| y l]; [reflexivity |]. cbn [insert_by].
  inversion Hhd as [| ? ? Hxy]; subst. now rewrite Hxy.
Qed.

Lemma StronglySorted_map_in (R : A -> A -> Prop) (R' : B -> B -> Prop) (f : A -> B) l :
  (forall a b, In a l -> In b l -> R a b -> R' (f a) (f b)) ->
  StronglySorted R l -> StronglySorted R' (map f l).
Proof.
  induction l as [| x l IH]; intros Himp Hs; cbn [map]; [constructor |].
  inversion Hs as [| ? ? Hs' Hall]; subst. constructor.
  - apply IH; [| exact Hs']. intros a b Ha Hb. apply Himp; now right.
  - rewrite List.Forall_forall in Hall |- *. intros y Hy.
    apply in_map_iff in Hy. destruct Hy as [w [<- Hw]].
    apply Himp; [now left | now right | now apply Hall].
Qed.

Lemma StronglySorted_NoDup (R : A -> A -> Prop) l :
  (forall a, ~ R a a) -> StronglySorted R l -> List.NoDup l.
Proof.
  intros Hirr. induction l as [| x l IH]; intros Hs; [constructor |].
  inversion Hs as [| ? ? Hs' Hall]; subst. constructor; [| now apply IH].
  intros Hin. rewrite List.Forall_forall in Hall. exact (Hirr x (Hall x Hin)).
Qed.

End SortedFacts.

Lemma set_line_frame l v r :
  feature_date (set_line l v r) = feature_date r
  /\ day_type (set_line l v r) = day_type r
  /\ dow (set_line l v r) = dow r
  /\ rain_average (set_line l v r) = rain_average r.
Proof. destruct l; repeat split. Qed.

Lemma get_set_line_eq l v r : get_line l (set_line l v r) = v.
Proof. now destruct l. Qed.

Lemma get_set_line_ne l l' v r : l <> l' -> get_line l (set_line l' v r) = get_line l r.
Proof. destruct l, l'; intros H; try reflexivity; congruence. Qed.

(** Filling a record touches line columns only. *)
Lemma fill_record_frame i cols rec :
  feature_date (fill_record i cols rec) = feature_date rec
  /\ day_type (fill_record i cols rec) = day_type rec
  /\ dow (fill_record i cols rec) = dow rec
  /\ rain_average (fill_record i cols rec) = rain_average rec.
Proof.
  unfold fill_record. revert rec.
  induction cols as [| cv cols IH]; intros rec; cbn [fold_left]; [repeat split |].
  destruct (target_of (fst cv)) as [l |]; [| apply IH].
  destruct (IH (set_line l (Some (nth i (snd cv) 0%Q)) rec)) as (H1 & H2 & H3 & H4).
  destruct (set_line_frame l (Some (nth i (snd cv) 0%Q)) rec) as (F1 & F2 & F3 & F4).
  repeat split; congruence.
Qed.

(** Every line column stays present. *)
Lemma fill_record_present i cols rec :
  (forall l, is_Some (get_line l rec)) ->
  forall l, is_Some (get_line l (fill_record i cols rec)).
Proof.
  unfold fill_record. revert rec.
  induction cols as [| cv cols IH]; intros rec Hrec; cbn [fold_left]; [exact Hrec |].
  destruct (target_of (fst cv)) as [l' |]; [| now apply IH].
  apply IH. intros l. destruct (decide (l = l')) as [-> | Hne].
  - rewrite get_set_line_eq. eauto.
  - rewrite get_set_line_ne by exact Hne. apply Hrec.
Qed.

(** A line no column maps to keeps the value of the fresh record. *)
Lemma fill_record_default i cols rec l :
  (forall cv, In cv cols -> target_of (fst cv) <> Some l) ->
  get_line l (fill_record i cols rec) = get_line l rec.
Proof.
  unfold fill_record. revert rec.
  induction cols as [| cv cols IH]; intros rec Hno; cbn [fold_left]; [reflexivity |].
  assert (Hcv : target_of (fst cv) <> Some l) by (apply Hno; now left).
  assert (Hrest : forall cv', In cv' cols -> target_of (fst cv') <> Some l)
    by (intros cv' Hin; apply Hno; now right).
  destruct (target_of (fst cv)) as [l' |]; [| now apply IH].
  rewrite (IH _ Hrest). apply get_set_line_ne. congruence.
Qed.

Lemma in_imap {A B} (f : nat -> A -> B) (l : list A) (y : B) :
  In y (imap f l) -> exists i x, In x l /\ y = f i x.
Proof.
  revert f. induction l as [| x l IH]; intros f; cbn; [tauto |].
  intros [<- | Hin]; [exists 0%nat, x; auto |].
  destruct (IH _ Hin) as [i [x' [Hx' ->]]]. exists (S i), x'. auto.
Qed.

Lemma map_imap_const {A B C} (g : B -> C) (h : A -> C) (f : nat -> A -> B) (l : list A) :
  (forall i x, g (f i x) = h x) -> map g (imap f l) = map h l.
Proof.
  revert f. induction l as [| x l IH]; intros f Hf; cbn; [reflexivity |].
  rewrite Hf. f_equal. apply IH. intros i y. apply Hf.
Qed.

Lemma Sorted_map_iff {A B} (R : B -> B -> Prop) (f : A -> B) l :
  Sorted (fun a b => R (f a) (f b)) l <-> Sorted R (map f l).
Proof.
  induction l as [| x l IH]; cbn [map]; [split; constructor |].
  split; intros Hs; inversion Hs as [| ? ? Hs' Hhd]; subst;
    (constructor; [now apply IH |]);
    destruct l; cbn [map] in *; constructor; now inversion Hhd.
Qed.

Lemma ts_ltb_date_leb a b : ts_ltb a b = true -> date_leb (ts_date a) (ts_date b) = true.
Proof.
  unfold ts_ltb, date_leb.
  rewrite orb_true_iff, andb_true_iff, !negb_true_iff, <- not_true_iff_false.
  rewrite !date_ltb_iff. lia.
Qed.

Lemma date_ltb_connected a b :
  date_ltb a b = false -> date_ltb b a = false -> a = b.
Proof.
  rewrite <- !not_true_iff_false, !date_ltb_iff. destruct a, b; cbn. intros H1 H2.
  f_equal; lia.
Qed.

Lemma ts_ltb_date_ltb a b :
  (ts_date a = ts_date b -> ts_time a = ts_time b) ->
  ts_ltb a b = true -> date_ltb (ts_date a) (ts_date b) = true.
Proof.
  unfold ts_ltb. intros Hsame.
  destruct (date_ltb (ts_date a) (ts_date b)) eqn:E1; [reflexivity |].
  destruct (date_ltb (ts_date b) (ts_date a)) eqn:E2; cbn; [discriminate |].
  rewrite (Hsame (date_ltb_connected _ _ E1 E2)), Z.ltb_irrefl. discriminate.
Qed.

Lemma in_observations records o :
  In o (observations records) ->
  exists r, In r records /\ r_date r = Some (fst (fst o)).
Proof.
  unfold observations. rewrite <- list_elem_of_In, list_elem_of_omap.
  intros [r [Hr Ho]]. exists r. rewrite <- list_elem_of_In. split; [exact Hr |].
  destruct (r_date r), (r_vehicle r); inversion Ho. reflexivity.
Qed.

Lemma in_index records ts :
  In ts (df_index (pivot_table (observations records))) ->
  exists r, In r records /\ r_date r = Some ts.
Proof.
  unfold pivot_table. cbn [df_index]. intros Hin.
  apply in_sort_uniq, in_map_iff in Hin. destruct Hin as [o [<- Ho]].
  now apply in_observations.
Qed.

Lemma one_stamp_per_day_index records a b :
  one_stamp_per_day records = true ->
  In a (df_index (pivot_table (observations records))) ->
  In b (df_index (pivot_table (observations records))) ->
  ts_date a = ts_date b -> ts_time a = ts_time b.
Proof.
  unfold one_stamp_per_day. intros Hd Ha Hb Hab.
  apply in_index in Ha, Hb. destruct Ha as [r1 [Hr1 Ht1]], Hb as [r2 [Hr2 Ht2]].
  rewrite forallb_forall in Hd. specialize (Hd r1 Hr1).
  rewrite forallb_forall in Hd. specialize (Hd r2 Hr2).
  rewrite Ht1, Ht2, (bool_decide_eq_true_2 _ Hab) in Hd.
  now apply Z.eqb_eq.
Qed.

(** The shape of a returned frame: the merge went through, and the rows are
    the records filled from the pivot table, one per index entry, in index
    order. *)
Lemma process_mot_data_returns records rows :
  process_mot_data records = Returns rows ->
  let pivot_df := pivot_table (observations records) in
  exists cols,
    merge_groups line_groups (column_names pivot_df) (df_columns pivot_df) = Some cols
    /\ rows = imap (fun i ts => fill_record i cols (new_record (ts_date ts)))
                   (df_index pivot_df)
    /\ map feature_date rows = map ts_date (df_index pivot_df).
Proof.
  intros Hp pivot_df. unfold process_mot_data in Hp. fold pivot_df in Hp.
  destruct records as [| r0 records]; [discriminate |].
  destruct (forallb _ (r0 :: records)); [discriminate |].
  destruct (merge_groups _ _ _) as [cols |]; [| discriminate].
  exists cols. split; [reflexivity |].
  set (result_data := imap _ (df_index pivot_df)) in *.
  assert (Hdates : map feature_date result_data = map ts_date (df_index pivot_df)).
  { apply map_imap_const. intros i ts.
    destruct (fill_record_frame i cols (new_record (ts_date ts))) as [-> _]. reflexivity. }
  assert (Hsorted : Sorted (fun a b => row_leb a b = true) result_data).
  { unfold row_leb.
    apply (Sorted_map_iff (fun a b => date_leb a b = true) feature_date).
    rewrite Hdates. apply StronglySorted_Sorted.
    apply (StronglySorted_map_in (fun a b => ts_ltb a b = true)).
    - intros a b _ _. apply ts_ltb_date_leb.
    - apply sort_uniq_sorted, ts_ltb_trans. }
  rewrite (sort_by_sorted_id _ _ Hsorted) in Hp.
  destruct result_data as [| r rs] eqn:E; [discriminate |].
  inversion Hp; subst rows. split; [reflexivity | exact Hdates].
Qed.

(** C10, as the code has it.  Every emitted row has [day_type = -1], no
    [rain_average], [dow] equal to the weekday of its date (Monday 0 ...
    Sunday 6) and all seven line columns present, at 0.0 where no pivot column
    maps to the line; the rows are in ascending date order.  When no two
    records of the batch carry the same day with different times of day (as
    for date-only values), the dates are strictly ascending, hence pairwise
    distinct. *)
Theorem process_mot_data_rows (records : list RawRecord) (rows : list Row) :
  process_mot_data records = Returns rows ->
  List.Forall (fun r => day_type r = -1
                        /\ rain_average r = None
                        /\ dow r = date_weekday (feature_date r)
                        /\ 0 <= dow r <= 6
                        /\ forall l, exists v, get_line l r = Some v) rows
  /\ (exists cols,
        merge_groups line_groups
          (column_names (pivot_table (observations records)))
          (df_columns (pivot_table (observations records))) = Some cols
        /\ List.Forall (fun r => forall l,
                            (forall c, In c (map fst cols) -> target_of c <> Some l) ->
                            get_line l r = Some 0%Q) rows)
  /\ StronglySorted (fun a b => date_leb a b = true) (map feature_date rows)
  /\ (one_stamp_per_day records = true ->
      StronglySorted (fun a b => date_ltb a b = true) (map feature_date rows)
      /\ List.NoDup (map feature_date rows)).
Proof.
  intros Hp. destruct (process_mot_data_returns records rows Hp) as [cols [Hm [Hrows Hdates]]].
  split; [| split; [| split]].
  - apply List.Forall_forall. intros r Hr. rewrite Hrows in Hr.
    apply in_imap in Hr. destruct Hr as [i [ts [_ ->]]].
    destruct (fill_record_frame i cols (new_record (ts_date ts))) as (F1 & F2 & F3 & F4).
    rewrite F1, F2, F3, F4. cbn [new_record feature_date day_type dow rain_average].
    repeat split; try reflexivity.
    + apply Z.mod_pos_bound. lia.
    + pose proof (Z.mod_pos_bound (toordinal (ts_date ts) + 6) 7). unfold date_weekday. lia.
    + intros l. apply (fill_record_present i cols (new_record (ts_date ts))).
      intros []; cbn; eauto.
  - exists cols. split; [exact Hm |].
    apply List.Forall_forall. intros r Hr l Hno. rewrite Hrows in Hr.
    apply in_imap in Hr. destruct Hr as [i [ts [_ ->]]].
    rewrite fill_record_default; [now destruct l |].
    intros cv Hcv. apply Hno. apply in_map_iff. now exists cv.
  - rewrite Hdates.
    apply (StronglySorted_map_in (fun a b => ts_ltb a b = true)).
    + intros a b _ _. apply ts_ltb_date_leb.
    + apply sort_uniq_sorted, ts_ltb_trans.
  - intros Hd.
    assert (Hs : StronglySorted (fun a b => date_ltb a b = true) (map feature_date rows)).
    { rewrite Hdates.
      apply (StronglySorted_map_in (fun a b => ts_ltb a b = true)).
      - intros a b Ha Hb.
        apply ts_ltb_date_ltb. now apply (one_stamp_per_day_index records).
      - apply sort_uniq_sorted, ts_ltb_trans. }
    split; [exact Hs |].
    apply (StronglySorted_NoDup (fun a b => date_ltb a b = true)); [| exact Hs].
    intros a. rewrite date_ltb_irrefl. discriminate.
Qed.

Lemma process_mot_data_rows_witness :
  exists rows,
    process_mot_data two_day_batch = Returns rows
    /\ map feature_date rows = [mkDate 2025 9 4; mkDate 2025 9 5]
    /\ List.Forall (fun r => day_type r = -1 /\ rain_average r = None) rows
    /\ List.NoDup (map feature_date rows).
Proof.
  eexists. split; [vm_compute; reflexivity |].
  split; [reflexivity |].
  pose proof (process_mot_data_rows two_day_batch _ eq_refl) as (Hall & _ & _ & Hd).
  split.
  - eapply List.Forall_impl; [| exact Hall]. cbn beta. intros r (H1 & H2 & _). auto.
  - exact (proj2 (Hd eq_refl)).
Defined.

(** C10, as stated, fails: two counts stamped at different hours of one day
    give two rows with the same [feature_date]. *)
Lemma same_day_rows_share_date :
  exists r1 r2,
    process_mot_data same_day_batch = Returns [r1; r2]
    /\ feature_date r1 = feature_date r2
    /\ ~ List.NoDup (map feature_date [r1; r2]).
Proof.
  eexists _, _. split; [vm_compute; reflexivity |].
  split; [reflexivity |].
  intros Hnd. inversion Hnd as [| ? ? Hnotin _]; subst. apply Hnotin. now left.
Qed.

(** * Further properties of the code *)

(** ** [get_second_saturday] on every month *)

Lemma second_saturday_day_closed y m :
  1 <= m <= 12 -> second_saturday_day y m = 13 - weekday y m 1.
Proof.
  intros Hm.
  unfold second_saturday_day, monthcalendar, itermonthdays.
  pose proof (monthrange_ndays y m Hm) as Hn.
  pose proof (weekday_range y m 1) as Hw.
  unfold monthrange in *. cbn [snd] in *.
  set (day1 := weekday y m 1) in *.
  set (ndays := nth (Z.to_nat m) mdays 0 + (if (m =? 2) && isleap y then 1 else 0)) in *.
  clearbody day1 ndays.
  assert (Hd : day1 = 0 \/ day1 = 1 \/ day1 = 2 \/ day1 = 3 \/ day1 = 4 \/ day1 = 5
               \/ day1 = 6) by lia.
  assert (Hk : ndays = 28 \/ ndays = 29 \/ ndays = 30 \/ ndays = 31) by lia.
  clear Hn Hw Hm.
  repeat (destruct Hd as [-> | Hd]); try subst day1;
    repeat (destruct Hk as [-> | Hk]); try subst ndays; vm_compute; reflexivity.
Qed.

(** X1. For every year and every month 1..12, the day [get_second_saturday]
    puts in its answer is 13 minus the weekday of the 1st: a Saturday between
    the 7th and the 13th.  It is the second Saturday of the month exactly when
    the month does not start on a Sunday. *)
Theorem second_saturday_day_is_saturday (y m : Z) :
  1 <= m <= 12 ->
  second_saturday_day y m = 13 - weekday y m 1
  /\ 7 <= second_saturday_day y m <= 13
  /\ weekday y m (second_saturday_day y m) = 5
  /\ (second_saturday_day y m = conventional_second_saturday y m
      <-> weekday y m 1 <> 6).
Proof.
  intros Hm. pose proof (second_saturday_day_closed y m Hm) as Hc.
  pose proof (weekday_range y m 1) as Hw.
  destruct (second_saturday_day_cases y m Hm) as [Hne He].
  split; [exact Hc |]. split; [lia |]. split.
  - rewrite weekday_shift, Hc.
    replace (weekday y m 1 + (13 - weekday y m 1 - 1)) with 12 by lia. reflexivity.
  - split.
    + intros Heq H6. destruct (He H6) as [H7 H14]. lia.
    + exact Hne.
Qed.

Lemma second_saturday_day_is_saturday_witness :
  second_saturday_day 2025 1 = 11 /\ weekday 2025 1 11 = 5.
Proof.
  assert (Hm : 1 <= 1 <= 12) by lia.
  destruct (second_saturday_day_is_saturday 2025 1 Hm) as (Hc & _ & Hs & _).
  split; [rewrite Hc; reflexivity |].
  replace 11 with (second_saturday_day 2025 1) by (rewrite Hc; reflexivity).
  exact Hs.
Defined.

(** ** Gap detection *)

Section SortMembership.

Context {A : Type}.

Lemma insert_by_in (leb : A -> A -> bool) x y l :
  In y (insert_by leb x l) <-> y = x \/ In y l.
Proof.
  induction l as [| z l IH]; cbn; [intuition |].
  destruct (leb x z); cbn; [intuition | rewrite IH; intuition].
Qed.

Lemma sort_by_in (leb : A -> A -> bool) y l : In y (sort_by leb l) <-> In y l.
Proof.
  unfold sort_by. induction l as [| x l IH]; cbn; [reflexivity |].
  rewrite insert_by_in, IH. intuition.
Qed.

Lemma insert_by_permutation (leb : A -> A -> bool) x l :
  Permutation (insert_by leb x l) (x :: l).
Proof.
  induction l as [| z l IH]; cbn; [reflexivity |].
  destruct (leb x z); [reflexivity |].
  rewrite IH. apply perm_swap.
Qed.

Lemma sort_by_permutation (leb : A -> A -> bool) l : Permutation (sort_by leb l) l.
Proof.
  unfold sort_by. induction l as [| x l IH]; cbn; [reflexivity |].
  now rewrite insert_by_permutation, IH.
Qed.

Lemma sort_by_nil (leb : A -> A -> bool) l : sort_by leb l = [] <-> l = [].
Proof.
  split; [| now intros ->]. intros H.
  apply Permutation_nil. rewrite <- H. apply sort_by_permutation.
Qed.

End SortMembership.

Lemma NoDup_fst_filter {K V} (p : K * V -> bool) (l : list (K * V)) :
  List.NoDup (map fst l) -> List.NoDup (map fst (List.filter p l)).
Proof.
  induction l as [| x l IH]; cbn; [auto |].
  intros Hnd. inversion Hnd as [| ? ? Hnotin Hnd']; subst.
  destruct (p x); cbn; [| now apply IH].
  constructor; [| now apply IH].
  intros Hin. apply Hnotin. apply in_map_iff in Hin. destruct Hin as [y [Hy Hin]].
  apply List.filter_In in Hin. apply in_map_iff. exists y. tauto.
Qed.

(** The dates selected by a [WHERE] condition on the row, in [ORDER BY]
    order: exactly the keys whose row satisfies it, each once, ascending. *)
Lemma selected_dates_spec (p : Row -> bool) (S : Store) :
  let dates :=
    sort_by date_leb (map fst (List.filter (fun kr => p (snd kr)) (map_to_list S))) in
  (forall d, In d dates <-> exists r, S !! d = Some r /\ p r = true)
  /\ List.NoDup dates
  /\ Sorted (fun a b => date_leb a b = true) dates.
Proof.
  cbv zeta. split; [| split].
  - intros d. rewrite sort_by_in, in_map_iff. split.
    + intros [[d' r] [Hd Hin]]. cbn in Hd. subst d'.
      apply List.filter_In in Hin. destruct Hin as [Hin Hp].
      exists r. split; [| exact Hp].
      apply elem_of_map_to_list. now apply list_elem_of_In.
    + intros [r [Hr Hp]]. exists (d, r). split; [reflexivity |].
      apply List.filter_In. split; [| exact Hp].
      apply list_elem_of_In. now apply elem_of_map_to_list.
  - eapply Permutation_NoDup; [symmetry; apply sort_by_permutation |].
    apply NoDup_fst_filter. apply NoDup_ListNoDup. apply NoDup_fst_map_to_list.
  - apply sort_by_sorted. apply date_leb_total.
Qed.

(** X2. The two gap queries list exactly the dates whose row still holds the
    placeholder (NULL [rain_average], [day_type = -1]), each date once, in
    ascending order. *)
Theorem gap_queries_list_pending_dates (S : Store) :
  (forall d, In d (RainRun.get_null_rain_dates_from_db S)
             <-> exists r, S !! d = Some r /\ rain_average r = None)
  /\ List.NoDup (RainRun.get_null_rain_dates_from_db S)
  /\ Sorted (fun a b => date_leb a b = true) (RainRun.get_null_rain_dates_from_db S)
  /\ (forall d, In d (DayTypeRun.get_day_type_null_dates_from_db S)
                <-> exists r, S !! d = Some r /\ day_type r = -1)
  /\ List.NoDup (DayTypeRun.get_day_type_null_dates_from_db S)
  /\ Sorted (fun a b => date_leb a b = true)
            (DayTypeRun.get_day_type_null_dates_from_db S).
Proof.
  destruct (selected_dates_spec rain_pending S) as (R1 & R2 & R3).
  destruct (selected_dates_spec day_type_pending S) as (D1 & D2 & D3).
  repeat split; try assumption.
  - intros Hin. apply R1 in Hin. destruct Hin as [r [Hr Hp]]. exists r. split; [exact Hr |].
    unfold rain_pending in Hp. now destruct (rain_average r).
  - intros [r [Hr Hp]]. apply R1. exists r. split; [exact Hr |].
    unfold rain_pending. now rewrite Hp.
  - intros Hin. apply D1 in Hin. destruct Hin as [r [Hr Hp]]. exists r. split; [exact Hr |].
    now apply Z.eqb_eq.
  - intros [r [Hr Hp]]. apply D1. exists r. split; [exact Hr |].
    unfold day_type_pending. now apply Z.eqb_eq.
Qed.

(** ** The day-type run *)

Section GuardedBatch.

Context {V : Type}.
Variable guard : Row -> bool.
Variable upd : V -> Row -> Row.

(** A batch with one fragment per date, valued by [f]: each listed date is
    updated once if its row holds the placeholder. *)
Lemma guarded_updates_per_date (f : Date -> V) (ds : list Date) (S : Store) (d : Date) :
  List.NoDup ds ->
  guarded_updates guard upd (map (fun d' => (d', f d')) ds) S !! d
  = if bool_decide (d ∈ ds)
    then (fun r => if guard r then upd (f d) r else r) <$> S !! d
    else S !! d.
Proof.
  unfold guarded_updates. revert S.
  induction ds as [| d0 ds IH]; intros S Hnd; [reflexivity |].
  inversion Hnd as [| ? ? Hnotin Hnd']; subst.
  rewrite <- list_elem_of_In in Hnotin.
  cbn [map fold_left fst snd]. rewrite (IH _ Hnd').
  destruct (decide (d = d0)) as [-> | Hne].
  - rewrite (bool_decide_eq_false_2 _ Hnotin).
    rewrite bool_decide_eq_true_2 by (apply elem_of_cons; now left).
    unfold guarded_update. destruct (S !! d0) as [r |] eqn:E; [| now rewrite E].
    cbn. destruct (guard r); [now rewrite lookup_insert_eq | now rewrite E].
  - assert (Hs : guarded_update guard upd S d0 (f d0) !! d = S !! d).
    { unfold guarded_update. destruct (S !! d0) as [r |]; [| reflexivity].
      destruct (guard r); [now rewrite lookup_insert_ne | reflexivity]. }
    rewrite Hs. destruct (bool_decide (d ∈ ds)) eqn:Ed.
    + apply bool_decide_eq_true_1 in Ed.
      rewrite bool_decide_eq_true_2 by (apply elem_of_cons; now right).
      reflexivity.
    + apply bool_decide_eq_false_1 in Ed. rewrite bool_decide_eq_false_2; [reflexivity |].
      intros H. apply elem_of_cons in H.
      destruct H as [H | H]; [congruence | contradiction].
Qed.

End GuardedBatch.

Lemma no_selected_dates (p : Row -> bool) (S : Store) :
  (forall d r, S !! d = Some r -> p r = false) ->
  sort_by date_leb (map fst (List.filter (fun kr => p (snd kr)) (map_to_list S))) = [].
Proof.
  intros Hno. destruct (selected_dates_spec p S) as (Hin & _ & _). cbv zeta in Hin.
  destruct (sort_by _ _) as [| d l]; [reflexivity |]. exfalso.
  destruct (proj1 (Hin d) (or_introl eq_refl)) as [r [Hr Hp]].
  rewrite (Hno d r Hr) in Hp. discriminate.
Qed.

Lemma day_type_of_values d H F :
  fst (day_type_of d H F) = 0 \/ fst (day_type_of d H F) = 1 \/ fst (day_type_of d H F) = 2.
Proof.
  unfold day_type_of.
  destruct (bool_decide (d ∈ H)); [now left |].
  destruct (bool_decide (d ∈ F)); cbn; auto.
Qed.

Lemma day_type_pairs_classify dates H :
  DayTypeRun.day_type_pairs (classify_day_types dates H)
  = map (fun d => (d, fst (day_type_of (strftime_ymd d) H (festival_dates_of dates)))) dates.
Proof.
  unfold DayTypeRun.day_type_pairs, classify_day_types. rewrite map_map.
  apply map_ext. intros d.
  now destruct (day_type_of (strftime_ymd d) H (festival_dates_of dates)).
Qed.

(** The run in closed form: the guarded updates of one fragment per pending
    date. *)
Lemma day_type_main_closed (holiday_dates : gset string) (S : Store) :
  DayTypeRun.main holiday_dates S
  = (guarded_updates day_type_pending set_day_type
       (map (fun d => (d, fst (day_type_of (strftime_ymd d) holiday_dates
                                 (festival_dates_of
                                    (DayTypeRun.get_day_type_null_dates_from_db S)))))
            (DayTypeRun.get_day_type_null_dates_from_db S)) S,
     true).
Proof.
  unfold DayTypeRun.main.
  destruct (DayTypeRun.get_day_type_null_dates_from_db S) as [| d0 ds] eqn:Ep;
    [reflexivity |].
  rewrite <- day_type_pairs_classify.
  destruct (classify_day_types (d0 :: ds) holiday_dates) as [| c cs] eqn:Ec;
    [discriminate |].
  rewrite <- update_day_type_in_db_guarded. reflexivity.
Qed.

(** What the run leaves under each date. *)
Lemma day_type_main_lookup (holiday_dates : gset string) (S : Store) (d : Date) :
  fst (DayTypeRun.main holiday_dates S) !! d
  = (fun r => if day_type r =? -1
              then set_day_type
                     (fst (day_type_of (strftime_ymd d) holiday_dates
                             (festival_dates_of
                                (DayTypeRun.get_day_type_null_dates_from_db S)))) r
              else r) <$> S !! d.
Proof.
  set (pending := DayTypeRun.get_day_type_null_dates_from_db S).
  assert (Hin : forall d, In d pending
                          <-> exists r, S !! d = Some r /\ day_type_pending r = true)
    by exact (proj1 (selected_dates_spec day_type_pending S)).
  assert (Hnd : List.NoDup pending)
    by exact (proj1 (proj2 (selected_dates_spec day_type_pending S))).
  rewrite day_type_main_closed. fold pending. cbn [fst].
  rewrite guarded_updates_per_date by exact Hnd.
  destruct (bool_decide (d ∈ pending)) eqn:Ed; [reflexivity |].
  apply bool_decide_eq_false_1 in Ed. rewrite list_elem_of_In in Ed.
  destruct (S !! d) as [r |] eqn:Er; [| reflexivity]. cbn.
  destruct (day_type r =? -1) eqn:Et; [| reflexivity].
  exfalso. apply Ed, Hin. exists r. split; [exact Er | exact Et].
Qed.

(** No row is left with the placeholder. *)
Lemma day_type_main_classified (holiday_dates : gset string) (S : Store) (d : Date) (r : Row) :
  fst (DayTypeRun.main holiday_dates S) !! d = Some r -> day_type_pending r = false.
Proof.
  rewrite day_type_main_lookup. intros Hr.
  destruct (S !! d) as [r0 |]; [| discriminate].
  cbn in Hr. inversion Hr; subst r. unfold day_type_pending.
  destruct (day_type r0 =? -1) eqn:Et; [| exact Et].
  cbn. apply Z.eqb_neq.
  destruct (day_type_of_values (strftime_ymd d) holiday_dates
              (festival_dates_of (DayTypeRun.get_day_type_null_dates_from_db S)))
    as [-> | [-> | ->]]; discriminate.
Qed.

(** X3. One run of the day-type script, for any holiday set: every row that
    held [day_type = -1] gets the type the classification gives its date (0, 1
    or 2); every other row and every other column is as before; no row
    appears or disappears; afterwards the gap query finds nothing, and the run
    reports success. *)
Theorem day_type_run_fills_every_gap (holiday_dates : gset string) (S : Store) :
  let pending := DayTypeRun.get_day_type_null_dates_from_db S in
  let S' := fst (DayTypeRun.main holiday_dates S) in
  (forall d,
      S' !! d
      = (fun r => if day_type r =? -1
                  then set_day_type
                         (fst (day_type_of (strftime_ymd d) holiday_dates
                                           (festival_dates_of pending))) r
                  else r) <$> S !! d)
  /\ DayTypeRun.get_day_type_null_dates_from_db S' = []
  /\ snd (DayTypeRun.main holiday_dates S) = true.
Proof.
  intros pending S'. subst S' pending.
  split; [intros d; apply day_type_main_lookup |].
  split; [| now rewrite day_type_main_closed].
  apply (no_selected_dates day_type_pending). intros d r.
  apply day_type_main_classified.
Qed.

(** ** The rain run *)

Lemma rain_main_store (fetch : RainRun.Fetch) (S : Store) :
  fst (RainRun.main fetch S)
  = guarded_updates rain_pending set_rain_value
      (default [] (fetch (RainRun.get_null_rain_dates_from_db S))) S.
Proof.
  unfold RainRun.main.
  destruct (RainRun.get_null_rain_dates_from_db S) as [| d0 ds] eqn:Ep.
  - cbn [fst]. symmetry. apply guarded_updates_fixed. intros d v _.
    unfold guarded_update. destruct (S !! d) as [r |] eqn:Er; [| reflexivity].
    destruct (rain_pending r) eqn:G; [| reflexivity]. exfalso.
    assert (Hin : In d (RainRun.get_null_rain_dates_from_db S)).
    { apply (proj1 (selected_dates_spec rain_pending S)). eauto. }
    rewrite Ep in Hin. exact Hin.
  - destruct (fetch (d0 :: ds)) as [[| row rain_data] |]; try reflexivity.
    cbn [default]. apply update_rain_average_in_db_guarded.
Qed.

Lemma rain_main_lookup (fetch : RainRun.Fetch) (S : Store) (d : Date) :
  let fetched := default [] (fetch (RainRun.get_null_rain_dates_from_db S)) in
  fst (RainRun.main fetch S) !! d = S !! d
  \/ exists r v, S !! d = Some r /\ rain_pending r = true /\ In (d, v) fetched
                 /\ fst (RainRun.main fetch S) !! d = Some (set_rain_value v r).
Proof.
  cbv zeta. rewrite rain_main_store. apply guarded_updates_lookup.
  apply set_rain_value_twice.
Qed.

(** The gaps a run leaves: those it found and got no data for. *)
Lemma rain_main_gap (fetch : RainRun.Fetch) (S : Store) (d : Date) :
  In d (RainRun.get_null_rain_dates_from_db (fst (RainRun.main fetch S)))
  <-> In d (RainRun.get_null_rain_dates_from_db S)
      /\ ~ In d (map fst (default [] (fetch (RainRun.get_null_rain_dates_from_db S)))).
Proof.
  assert (Hp : forall (T : Store) d,
             In d (RainRun.get_null_rain_dates_from_db T)
             <-> exists r, T !! d = Some r /\ rain_pending r = true)
    by (intros T; exact (proj1 (selected_dates_spec rain_pending T))).
  pose proof (rain_main_lookup fetch S d) as Hlook. cbv zeta in Hlook.
  set (fetched := default [] (fetch (RainRun.get_null_rain_dates_from_db S))) in *.
  rewrite (Hp (fst (RainRun.main fetch S)) d), (Hp S d). split.
  - intros [r' [Hr' G']].
    destruct Hlook as [Heq | (r & v & Hr & G & Hin & Hs)].
    + split; [exists r'; split; [congruence | exact G'] |].
      intros Hin. apply in_map_iff in Hin. destruct Hin as [[d' v] [Hd Hin]].
      cbn in Hd. subst d'.
      assert (Hf : rain_pending r' = false).
      { rewrite rain_main_store in Hr'. fold fetched in Hr'.
        apply (guarded_updates_settled rain_pending set_rain_value set_rain_value_twice
                 fetched S d v r' Hin); [intros r0; reflexivity | exact Hr']. }
      congruence.
    + rewrite Hs in Hr'. inversion Hr'; subst r'. discriminate.
  - intros [[r [Hr G]] Hnot]. exists r. split; [| exact G].
    destruct Hlook as [Heq | (r0 & v & _ & _ & Hin & _)]; [congruence |].
    exfalso. apply Hnot. apply in_map_iff. now exists (d, v).
Qed.

(** X4. One run of the rain script, whatever the weather side returns: a date
    is still without rain afterwards exactly when it was before and the
    fetched data has no row for it; rows that already had a value are
    untouched; no row appears or disappears; the run reports success exactly
    when there was no gap or some data came back. *)
Theorem rain_run_closes_fetched_gaps (fetch : RainRun.Fetch) (S : Store) :
  let pending := RainRun.get_null_rain_dates_from_db S in
  let fetched := default [] (fetch pending) in
  let S' := fst (RainRun.main fetch S) in
  (forall d, In d (RainRun.get_null_rain_dates_from_db S')
             <-> In d pending /\ ~ In d (map fst fetched))
  /\ (forall d r, S !! d = Some r -> rain_average r <> None -> S' !! d = Some r)
  /\ (forall d, S' !! d = None <-> S !! d = None)
  /\ (snd (RainRun.main fetch S) = true <-> pending = [] \/ fetched <> []).
Proof.
  intros pending fetched S'. subst S'.
  split; [intros d; apply rain_main_gap |].
  split; [| split].
  - intros d r Hr Hnn. rewrite rain_main_store.
    apply (guarded_updates_unguarded rain_pending set_rain_value set_rain_value_twice);
      [exact Hr |].
    unfold rain_pending. now destruct (rain_average r).
  - intros d. destruct (rain_main_lookup fetch S d) as [Heq | (r & v & Hr & _ & _ & Hs)];
      [now rewrite Heq |].
    rewrite Hr, Hs. split; discriminate.
  - unfold RainRun.main. fold pending. subst fetched.
    destruct pending as [| d0 ds]; [cbn; tauto |].
    destruct (fetch (d0 :: ds)) as [[| row rain_data] |]; cbn.
    + split; [discriminate | intros [H | H]; [discriminate | contradiction]].
    + split; [intros _; right; discriminate | reflexivity].
    + split; [discriminate | intros [H | H]; [discriminate | contradiction]].
Qed.

(** ** The transit upsert: what is stored *)

Lemma chunks_fuel_concat {A} (fuel n : nat) (l : list A) :
  (0 < n)%nat -> (length l <= fuel)%nat -> concat (chunks_fuel fuel n l) = l.
Proof.
  intros Hn. revert l. induction fuel as [| fuel IH]; intros l Hl.
  - destruct l; [reflexivity | cbn in Hl; lia].
  - destruct l as [| x l]; [reflexivity |].
    cbn [chunks_fuel concat]. rewrite IH.
    + apply firstn_skipn.
    + rewrite length_skipn. cbn [length] in *. lia.
Qed.

Lemma chunks_concat {A} (n : nat) (l : list A) : (0 < n)%nat -> concat (chunks n l) = l.
Proof. intros Hn. apply chunks_fuel_concat; [exact Hn | reflexivity]. Qed.




(** After any sequence of upserts a date holds what it held, or one of the
    proposed rows of that date. *)
Lemma upsert_fold_cases (l : list Row) (S : Store) (d : Date) :
  fold_left upsert_row l S !! d = S !! d
  \/ exists r, In r l /\ feature_date r = d /\ fold_left upsert_row l S !! d = Some r.
Proof.
  rewrite upsert_fold_lookup.
  destruct (find _ (rev l)) as [r |] eqn:E; [| now left].
  right. apply find_some in E. destruct E as [Hin Hd].
  exists r. split; [now apply in_rev |]. split; [| reflexivity].
  now apply bool_decide_eq_true_1 in Hd.
Qed.

(** [insert_new_data] in closed form. *)
Lemma insert_new_data_closed (df : list Row) (S : Store) :
  insert_new_data df S
  = if negb (is_nil_b df)
       && forallb (fun page => bool_decide (NoDup (map feature_date page)))
                  (chunks 100 (sort_by row_leb df))
    then (fold_left upsert_row (sort_by row_leb df) S, true)
    else (S, false).
Proof.
  unfold insert_new_data, execute_values.
  destruct df as [| r0 df]; [reflexivity |]. cbn [is_nil_b negb andb].
  destruct (sort_by row_leb (r0 :: df)) as [| r rows] eqn:E.
  { apply sort_by_nil in E. discriminate. }
  rewrite execute_pages_spec.
  destruct (forallb _ _); [| reflexivity].
  rewrite chunks_concat by lia. reflexivity.
Qed.


(** ** The transit driver *)

Lemma max_date_spec (l : list Date) (m : Date) :
  max_date l = Some m -> In m l /\ forall d, In d l -> date_ltb m d = false.
Proof.
  revert m. induction l as [| x l IH]; intros m Hm; [discriminate |].
  cbn [max_date foldr] in Hm. fold (max_date l) in Hm.
  destruct (max_date l) as [m' |] eqn:E.
  - destruct (IH m' eq_refl) as [Hin Hmax].
    destruct (date_ltb m' x) eqn:Elt; inversion Hm; subst m.
    + split; [now left |]. intros d [<- | Hd]; [apply date_ltb_irrefl |].
      specialize (Hmax d Hd). apply not_true_iff_false. intros Hxd.
      apply not_true_iff_false in Hmax. apply Hmax.
      exact (date_ltb_trans _ _ _ Elt Hxd).
    + split; [now right |]. intros d [<- | Hd]; [exact Elt | now apply Hmax].
  - inversion Hm; subst m. apply max_date_None in E. subst l.
    split; [now left |]. intros d [<- | []]. apply date_ltb_irrefl.
Qed.

(** The latest date is a date of the table and no date of the table is later. *)
Lemma get_latest_date_from_db_spec (S : Store) (m : Date) :
  get_latest_date_from_db S = Some m ->
  is_Some (S !! m) /\ forall d, is_Some (S !! d) -> date_ltb m d = false.
Proof.
  unfold get_latest_date_from_db. intros Hm. apply max_date_spec in Hm.
  destruct Hm as [Hin Hmax]. split.
  - apply in_map_iff in Hin. destruct Hin as [[d r] [Hd Hin]]. cbn in Hd. subst d.
    exists r. apply elem_of_map_to_list. now apply list_elem_of_In.
  - intros d [r Hr]. apply Hmax. apply in_map_iff. exists (d, r). split; [reflexivity |].
    apply list_elem_of_In. now apply elem_of_map_to_list.
Qed.

Lemma filter_new_records_spec records since_date r :
  In r (filter_new_records records since_date)
  <-> In r records
      /\ exists ts, r_date r = Some ts /\ date_ltb since_date (ts_date ts) = true.
Proof.
  unfold filter_new_records. rewrite List.filter_In. split.
  - intros [Hin Hd]. split; [exact Hin |]. destruct (r_date r) as [ts |]; [eauto | discriminate].
  - intros [Hin [ts [Hts Hd]]]. split; [exact Hin |]. now rewrite Hts.
Qed.

(** Each emitted row is a fresh record for the date of some record of the
    batch. *)
Lemma process_mot_data_row_origin records rows r :
  process_mot_data records = Returns rows -> In r rows ->
  day_type r = -1 /\ rain_average r = None /\ dow r = date_weekday (feature_date r)
  /\ exists rec ts, In rec records /\ r_date rec = Some ts /\ ts_date ts = feature_date r.
Proof.
  intros Hp Hin.
  destruct (process_mot_data_returns records rows Hp) as [cols [_ [Hrows _]]].
  rewrite Hrows in Hin. apply in_imap in Hin. destruct Hin as [i [ts [Hts ->]]].
  destruct (fill_record_frame i cols (new_record (ts_date ts))) as (F1 & F2 & F3 & F4).
  rewrite F1, F2, F3, F4. cbn [new_record feature_date day_type dow rain_average].
  repeat split.
  apply in_index in Hts. destruct Hts as [rec [Hrec Hd]]. eauto.
Qed.

Lemma insert_new_data_lookup (df : list Row) (S : Store) (d : Date) :
  fst (insert_new_data df S) !! d = S !! d
  \/ exists r, In r df /\ feature_date r = d /\ fst (insert_new_data df S) !! d = Some r.
Proof.
  rewrite insert_new_data_closed.
  destruct (negb (is_nil_b df) && _); cbn [fst]; [| now left].
  destruct (upsert_fold_cases (sort_by row_leb df) S d) as [H | [r [Hin [Hd Hl]]]];
    [now left |].
  right. exists r. split; [now apply (sort_by_in row_leb) |]. auto.
Qed.


(** What [main] leaves under each date: what was there, or a fresh row for a
    date the table did not have. *)
Lemma main_store_lookup (api : Api) (today : Date) (S : Store) (d : Date) :
  run_store (main api today S) !! d = S !! d
  \/ exists r' latest_date,
       S !! d = None /\ run_store (main api today S) !! d = Some r'
       /\ feature_date r' = d /\ day_type r' = -1 /\ rain_average r' = None
       /\ dow r' = date_weekday d
       /\ get_latest_date_from_db S = Some latest_date
       /\ date_ltb latest_date d = true.
Proof.
  unfold main.
  destruct (get_latest_date_from_db S) as [latest |] eqn:El; [| now left].
  set (all_records := flat_map _ _).
  set (requests := flat_map _ _).
  destruct all_records as [| a0 all_records'] eqn:Ea; [now left |].
  rewrite <- Ea. clear Ea.
  destruct (filter_new_records all_records latest) as [| n0 news] eqn:En; [now left |].
  rewrite <- En.
  destruct (process_mot_data (filter_new_records all_records latest)) as [| | rows] eqn:Ep;
    [now left .. |].
  destruct rows as [| r0 rows]; [now left |].
  set (df := r0 :: rows) in *.
  destruct (insert_new_data df S) as [S' ok] eqn:Ei. cbn [run_store].
  assert (HS' : S' = fst (insert_new_data df S)) by now rewrite Ei.
  destruct (get_latest_date_from_db_spec S latest El) as [_ Hmax].
  rewrite HS'.
  destruct (insert_new_data_lookup df S d) as [Heq | [r [Hin [Hd Hl]]]]; [now left |].
  destruct (process_mot_data_row_origin _ _ r Ep Hin)
    as (H1 & H2 & H3 & rec & ts & Hrec & Hts & Hdate).
  apply filter_new_records_spec in Hrec. destruct Hrec as [_ [ts' [Hts' Hlt]]].
  assert (Hnew : date_ltb latest d = true) by congruence.
  right. exists r, latest. repeat split; try assumption; try congruence.
  destruct (S !! d) as [r0' |] eqn:Er; [| reflexivity].
  rewrite (Hmax d) in Hnew by eauto. discriminate.
Qed.



Lemma main_requests_plan (api : Api) (today : Date) (S : Store) (latest_date : Date) :
  get_latest_date_from_db S = Some latest_date ->
  run_requests (main api today S)
  = flat_map (fun yms => map (pair (fst yms)) (snd yms))
             (query_plan (months_to_query latest_date today)).
Proof.
  intros El. unfold main. rewrite El.
  destruct (flat_map _ (query_plan _)) as [| a0 all_records] eqn:Ea; [reflexivity |].
  destruct (filter_new_records _ latest_date) as [| n0 news]; [reflexivity |].
  destruct (process_mot_data _) as [| | [| r0 rows]]; try reflexivity.
  now destruct (insert_new_data _ S).
Qed.

(** X7. With a non-empty table [main] asks the API for the month of the
    latest stored date and for the current month, once each and in
    chronological order (one request when they are the same month), whatever
    the API answers. *)
Theorem main_requests_two_months (api : Api) (today : Date) (S : Store) (latest_date : Date) :
  get_latest_date_from_db S = Some latest_date ->
  let latest_month := (year latest_date, month latest_date) in
  let current_month := (year today, month today) in
  run_requests (main api today S)
  = if bool_decide (latest_month = current_month) then [current_month]
    else if ym_ltb latest_month current_month then [latest_month; current_month]
    else [current_month; latest_month].
Proof.
  intros El latest_month current_month.
  rewrite (main_requests_plan api today S latest_date El).
  unfold months_to_query, query_plan, ym_ltb. subst latest_month current_month.
  cbn [fst snd].
  destruct latest_date as [ly lm ld], today as [cy cm cd]. cbn [year month].
  destruct (decide ((ly, lm) = (cy, cm))) as [E | E].
  - inversion E; subst. rewrite !Z.eqb_refl, bool_decide_eq_true_2 by reflexivity.
    reflexivity.
  - rewrite (bool_decide_eq_false_2 _ E).
    assert (Hneq : (ly =? cy) && (lm =? cm) = false).
    { apply not_true_iff_false. rewrite andb_true_iff, !Z.eqb_eq. intros [-> ->]. now apply E. }
    rewrite Hneq. unfold sort_uniq. cbn [foldr insert_uniq fst snd].
    destruct ((ly <? cy) || (ly =? cy) && (lm <? cm)) eqn:E1.
    + cbn [fold_left plan_add fst snd].
      destruct (cy =? ly) eqn:Ey; [apply Z.eqb_eq in Ey; subst |]; reflexivity.
    + destruct ((cy <? ly) || (cy =? ly) && (cm <? lm)) eqn:E2.
      * cbn [fold_left plan_add fst snd].
        destruct (ly =? cy) eqn:Ey; [apply Z.eqb_eq in Ey; subst |]; reflexivity.
      * exfalso. apply E.
        apply orb_false_iff in E1, E2. destruct E1 as [A1 B1], E2 as [A2 B2].
        apply Z.ltb_ge in A1, A2. assert (ly = cy) by lia. subst.
        rewrite Z.eqb_refl in B1, B2. cbn in B1, B2. apply Z.ltb_ge in B1, B2.
        f_equal. lia.
Qed.

(** ** The pivot: keys and columns *)









Section DistinctKeys.

Context {A : Type}.
Variable ltb : A -> A -> bool.
Hypothesis ltb_trans : forall a b c, ltb a b = true -> ltb b c = true -> ltb a c = true.
Hypothesis ltb_irrefl : forall a, ltb a a = false.
Hypothesis ltb_connected : forall a b, ltb a b = false -> ltb b a = false -> a = b.




End DistinctKeys.

(** ** The merge of column groups *)







(** ** Outcomes of the transit normalisation *)








(** ** Batches that use the labels of [vehicle_mapping] *)




Lemma target_of_canonical l : target_of (canonical_label l) = Some l.
Proof. destruct l; vm_compute; reflexivity. Qed.

Lemma canonical_label_inj l1 l2 : canonical_label l1 = canonical_label l2 -> l1 = l2.
Proof.
  intros H. pose proof (target_of_canonical l1) as H1. rewrite H, target_of_canonical in H1.
  congruence.
Qed.








(** ** Verdicts of the rain and day-type reports *)

Lemma filter_negb_length {A} (p : A -> bool) (l : list A) :
  (length (List.filter (fun x => negb (p x)) l) + length (List.filter p l))%nat = length l.
Proof.
  induction l as [| x l IH]; cbn; [reflexivity |]. destruct (p x); cbn; lia.
Qed.

Lemma ratio_below_threshold (p T : Z) :
  0 < T -> Qltb (inject_Z p / inject_Z T) (8 # 10) = true <-> 10 * p < 8 * T.
Proof.
  intros HT. rewrite Qltb_lt. destruct T as [| t | t]; try lia.
  unfold Qlt, Qdiv, Qmult, Qinv, inject_Z. cbn. lia.
Qed.

(** The score test shared by the two reports. *)
Lemma coverage_below_threshold (p T : Z) :
  Qltb (if 0 <? T then (inject_Z p / inject_Z T)%Q else 0%Q) (8 # 10) = true
  <-> T <= 0 \/ 10 * p < 8 * T.
Proof.
  destruct (0 <? T) eqn:E.
  - apply Z.ltb_lt in E. rewrite (ratio_below_threshold p T E). lia.
  - apply Z.ltb_ge in E. split; [intros _; now left | intros _; reflexivity].
Qed.

Lemma rain_status_closed today mot_result S :
  let q := rain_quality_report today mot_result S in
  rain_status q
  = if Qltb (if 0 <? total_records_of mot_result
             then (inject_Z (rain_records_processed q)
                   / inject_Z (total_records_of mot_result))%Q
             else 0%Q) (8 # 10)
    then FAIL
    else if 0 <? rain_null_rain_remaining q then WARNING else PASS.
Proof. reflexivity. Qed.

Lemma dtq_status_closed today mot_result S :
  let q := day_type_quality_report today mot_result S in
  dtq_status q
  = if Qltb (if 0 <? total_records_of mot_result
             then (inject_Z (dtq_records_processed q)
                   / inject_Z (total_records_of mot_result))%Q
             else 0%Q) (8 # 10)
    then FAIL
    else if negb (is_nil_b (dtq_classification_errors q)) then WARNING
    else if 0 <? dtq_pending_day_type_remaining q then WARNING else PASS.
Proof. reflexivity. Qed.


(** X12. The day-type report splits the window rows into classified and
    pending ones and names one error per row of the weekend query.  Its
    verdict is FAIL exactly when the record count taken from the transit
    report is not positive or fewer than 80 percent of it are classified;
    otherwise WARNING exactly when a row is pending or the weekend query
    returns a row, else PASS. *)
Theorem day_type_quality_verdict (today : Date) (mot_result : option MotQuality) (S : Store) :
  let rows := window_rows today S in
  let q := day_type_quality_report today mot_result S in
  let total := total_records_of mot_result in
  let failing := total <= 0 \/ 10 * dtq_records_processed q < 8 * total in
  dtq_records_processed q + dtq_pending_day_type_remaining q = Z.of_nat (length rows)
  /\ length (dtq_classification_errors q) = length (weekend_errors rows)
  /\ (dtq_status q = FAIL <-> failing)
  /\ (dtq_status q = WARNING
      <-> ~ failing /\ (0 < dtq_pending_day_type_remaining q \/ weekend_errors rows <> []))
  /\ (dtq_status q = PASS
      <-> ~ failing /\ dtq_pending_day_type_remaining q = 0 /\ weekend_errors rows = []).
Proof.
  intros rows q total failing.
  assert (Hcount : dtq_records_processed q + dtq_pending_day_type_remaining q
                   = Z.of_nat (length rows)).
  { unfold q, day_type_quality_report.
    cbn [dtq_records_processed dtq_pending_day_type_remaining]. fold rows.
    rewrite <- (filter_negb_length (fun r => day_type r =? -1) rows). lia. }
  assert (Hpend : 0 <= dtq_pending_day_type_remaining q).
  { unfold q, day_type_quality_report. cbn [dtq_pending_day_type_remaining]. lia. }
  assert (Herr : dtq_classification_errors q = map classification_error (weekend_errors rows))
    by reflexivity.
  assert (Hnil : is_nil_b (dtq_classification_errors q) = true <-> weekend_errors rows = []).
  { rewrite Herr. destruct (weekend_errors rows); cbn; split; congruence. }
  pose proof (dtq_status_closed today mot_result S) as Hst. cbv zeta in Hst.
  fold q total in Hst.
  pose proof (coverage_below_threshold (dtq_records_processed q) total) as Hthr.
  fold failing in Hthr.
  split; [exact Hcount |]. split; [rewrite Herr; apply length_map |]. rewrite Hst.
  destruct (Qltb _ (8 # 10)).
  - assert (Hf : failing) by (now apply Hthr).
    repeat split; try tauto; try discriminate; intros [Hn _]; contradiction.
  - assert (Hf : ~ failing) by (intros H; apply Hthr in H; discriminate).
    destruct (is_nil_b (dtq_classification_errors q)) eqn:En; cbn [negb].
    + assert (Hw : weekend_errors rows = []) by (now apply Hnil).
      destruct (0 <? dtq_pending_day_type_remaining q) eqn:E.
      * apply Z.ltb_lt in E.
        repeat split; try tauto; try discriminate; try lia; intros [_ [H0 _]]; lia.
      * apply Z.ltb_ge in E.
        repeat split; try tauto; try discriminate; try lia;
          intros [_ [H0 | H0]]; [lia | contradiction].
    + assert (Hw : weekend_errors rows <> [])
        by (intros H; apply Hnil in H; congruence).
      repeat split; try tauto; try discriminate; intros [_ [_ H0]]; contradiction.
Qed.

(** ** Whole runs of the DAG *)

(** The state a run ends in, case by case along the three checks. *)
Lemma run_dag_final (today : Date)
    (collect_mot collect_rain collect_day_type : Store -> Store) (S : Store) :
  let S1 := collect_mot S in
  let q1 := mot_quality_report today S1 in
  let S2 := collect_rain S1 in
  let q2 := rain_quality_report today (Some q1) S2 in
  let S3 := collect_day_type S2 in
  let q3 := day_type_quality_report today (Some q1) S3 in
  run_dag today collect_mot collect_rain collect_day_type S
  = if decide (mot_status q1 = FAIL) then
      mkRunState S1 (Some q1) None None
        [(end_weekly_data_collection, success);
         (pipeline_success, skipped); (final_quality_validation, skipped);
         (day_type_quality_failed, skipped); (day_type_quality_check, skipped);
         (collect_day_type_data, skipped); (rain_quality_failed, skipped);
         (rain_quality_check, skipped); (mot_quality_failed, success);
         (collect_rain_weather_data, skipped); (mot_quality_check, success);
         (collect_mot_transport_data, success); (start_weekly_data_collection, success)]
    else if decide (rain_status q2 = FAIL) then
      mkRunState S2 (Some q1) (Some q2) None
        [(end_weekly_data_collection, success);
         (pipeline_success, skipped); (final_quality_validation, skipped);
         (day_type_quality_failed, skipped); (day_type_quality_check, skipped);
         (rain_quality_failed, success); (collect_day_type_data, skipped);
         (rain_quality_check, success); (collect_rain_weather_data, success);
         (mot_quality_failed, skipped); (mot_quality_check, success);
         (collect_mot_transport_data, success); (start_weekly_data_collection, success)]
    else if decide (dtq_status q3 = FAIL) then
      mkRunState S3 (Some q1) (Some q2) (Some q3)
        [(end_weekly_data_collection, success);
         (pipeline_success, skipped); (day_type_quality_failed, success);
         (final_quality_validation, skipped); (day_type_quality_check, success);
         (collect_day_type_data, success); (rain_quality_failed, skipped);
         (rain_quality_check, success); (collect_rain_weather_data, success);
         (mot_quality_failed, skipped); (mot_quality_check, success);
         (collect_mot_transport_data, success); (start_weekly_data_collection, success)]
    else
      mkRunState S3 (Some q1) (Some q2) (Some q3)
        [(end_weekly_data_collection, success);
         (pipeline_success, success); (final_quality_validation, success);
         (day_type_quality_failed, skipped); (day_type_quality_check, success);
         (collect_day_type_data, success); (rain_quality_failed, skipped);
         (rain_quality_check, success); (collect_rain_weather_data, success);
         (mot_quality_failed, skipped); (mot_quality_check, success);
         (collect_mot_transport_data, success); (start_weekly_data_collection, success)].
Proof.
  intros S1 q1 S2 q2 S3 q3.
  unfold run_dag. rewrite schedule_stages.
  set (step' := step today collect_mot collect_rain collect_day_type).
  rewrite fold_left_app.
  assert (H1 : fold_left step'
                 [start_weekly_data_collection; collect_mot_transport_data;
                  mot_quality_check] (mkRunState S None None None [])
               = mkRunState S1 (Some q1) None None
                   (branch_states mot_quality_check
                      (if decide (mot_status q1 = FAIL)
                       then mot_quality_failed else collect_rain_weather_data)
                      [(collect_mot_transport_data, success);
                       (start_weekly_data_collection, success)])) by reflexivity.
  rewrite H1. clear H1. subst q2 q3. clearbody q1.
  destruct (decide (mot_status q1 = FAIL)) as [E1 | E1]; [reflexivity |].
  set (q2 := rain_quality_report today (Some q1) S2).
  set (q3 := day_type_quality_report today (Some q1) S3).
  rewrite fold_left_app.
  assert (H2 : fold_left step'
                 [mot_quality_failed; collect_rain_weather_data; rain_quality_check]
                 (mkRunState S1 (Some q1) None None
                    (branch_states mot_quality_check collect_rain_weather_data
                       [(collect_mot_transport_data, success);
                        (start_weekly_data_collection, success)]))
               = mkRunState S2 (Some q1) (Some q2) None
                   (branch_states rain_quality_check
                      (if decide (rain_status q2 = FAIL)
                       then rain_quality_failed else collect_day_type_data)
                      [(collect_rain_weather_data, success);
                       (mot_quality_failed, skipped);
                       (mot_quality_check, success);
                       (collect_mot_transport_data, success);
                       (start_weekly_data_collection, success)])) by reflexivity.
  rewrite H2. clear H2. subst q3. clearbody q2.
  destruct (decide (rain_status q2 = FAIL)) as [E2 | E2]; [reflexivity |].
  set (q3 := day_type_quality_report today (Some q1) S3).
  rewrite fold_left_app.
  assert (H3 : fold_left step'
                 [rain_quality_failed; collect_day_type_data; day_type_quality_check]
                 (mkRunState S2 (Some q1) (Some q2) None
                    (branch_states rain_quality_check collect_day_type_data
                       [(collect_rain_weather_data, success);
                        (mot_quality_failed, skipped);
                        (mot_quality_check, success);
                        (collect_mot_transport_data, success);
                        (start_weekly_data_collection, success)]))
               = mkRunState S3 (Some q1) (Some q2) (Some q3)
                   (branch_states day_type_quality_check
                      (if decide (dtq_status q3 = FAIL)
                       then day_type_quality_failed else final_quality_validation)
                      [(collect_day_type_data, success);
                       (rain_quality_failed, skipped);
                       (rain_quality_check, success);
                       (collect_rain_weather_data, success);
                       (mot_quality_failed, skipped);
                       (mot_quality_check, success);
                       (collect_mot_transport_data, success);
                       (start_weekly_data_collection, success)])) by reflexivity.
  rewrite H3. clear H3. clearbody q3.
  destruct (decide (dtq_status q3 = FAIL)) as [E3 | E3]; reflexivity.
Qed.

(** X13. When [final_quality_validation] runs, the three reports it pulls
    are all present and none has status FAIL: the overall status it computes
    is never FAIL, and it is PASS exactly when all three stages passed. *)
Theorem final_report_never_fails (today : Date)
    (collect_mot collect_rain collect_day_type : Store -> Store) (S : Store) :
  let r := run_dag today collect_mot collect_rain collect_day_type S in
  succeeded (rs_states r) final_quality_validation = true ->
  exists q1 q2 q3,
    rs_mot_result r = Some q1 /\ rs_rain_result r = Some q2
    /\ rs_day_type_result r = Some q3
    /\ mot_status q1 <> FAIL /\ rain_status q2 <> FAIL /\ dtq_status q3 <> FAIL
    /\ FinalReport.overall_status r <> FAIL
    /\ (FinalReport.overall_status r = PASS
        <-> mot_status q1 = PASS /\ rain_status q2 = PASS /\ dtq_status q3 = PASS).
Proof.
  intros r. subst r. rewrite run_dag_final.
  set (q1 := mot_quality_report _ _). set (q2 := rain_quality_report _ _ _).
  set (q3 := day_type_quality_report _ _ _). clearbody q1 q2 q3.
  destruct (decide (mot_status q1 = FAIL)) as [E1 | E1]; [discriminate |].
  destruct (decide (rain_status q2 = FAIL)) as [E2 | E2]; [discriminate |].
  destruct (decide (dtq_status q3 = FAIL)) as [E3 | E3]; [discriminate |].
  intros _. exists q1, q2, q3. cbn [rs_mot_result rs_rain_result rs_day_type_result].
  repeat (split; [first [reflexivity | assumption] |]).
  unfold FinalReport.overall_status, FinalReport.statuses.
  cbn [rs_mot_result rs_rain_result rs_day_type_result fmap option_fmap option_map].
  destruct (mot_status q1), (rain_status q2), (dtq_status q3);
    try congruence; vm_compute; split; try congruence; intuition congruence.
Qed.





(** ** Frames of one page *)



(** ** The window under the placeholder updates *)

Lemma filter_length_permutation {A} (p : A -> bool) (l l' : list A) :
  Permutation l l' -> length (List.filter p l) = length (List.filter p l').
Proof.
  induction 1 as [| x l l' _ IH | x y l | l l' l'' _ IH1 _ IH2]; cbn [List.filter].
  - reflexivity.
  - destruct (p x); cbn [length]; congruence.
  - destruct (p x), (p y); reflexivity.
  - congruence.
Qed.

Lemma length_filter_map {A B} (f : A -> B) (p : B -> bool) (l : list A) :
  length (List.filter p (map f l)) = length (List.filter (fun x => p (f x)) l).
Proof.
  induction l as [| x l IH]; [reflexivity |]. cbn [map List.filter].
  destruct (p (f x)); cbn [length]; congruence.
Qed.

Lemma window_rows_length today (S : Store) :
  length (window_rows today S)
  = length (List.filter (in_window today)
                        (map (fun kr => feature_date (snd kr)) (map_to_list S))).
Proof.
  unfold window_rows. rewrite !length_filter_map. reflexivity.
Qed.

Lemma in_window_rows today (S : Store) r :
  In r (window_rows today S) -> exists d, S !! d = Some r.
Proof.
  unfold window_rows. rewrite List.filter_In, in_map_iff.
  intros [[[d r'] [<- Hin]] _]. exists d.
  apply elem_of_map_to_list. now apply list_elem_of_In.
Qed.

Section WindowSize.

Context {V : Type}.
Variable guard : Row -> bool.
Variable upd : V -> Row -> Row.
Hypothesis upd_date : forall v r, feature_date (upd v r) = feature_date r.

Lemma guarded_update_dates (S : Store) d v :
  Permutation
    (map (fun kr => feature_date (snd kr)) (map_to_list (guarded_update guard upd S d v)))
    (map (fun kr => feature_date (snd kr)) (map_to_list S)).
Proof.
  unfold guarded_update. destruct (S !! d) as [r |] eqn:Er; [| reflexivity].
  destruct (guard r); [| reflexivity].
  transitivity (map (fun kr : Date * Row => feature_date (snd kr))
                    ((d, upd v r) :: map_to_list (delete d S))).
  - apply Permutation_map. rewrite <- (insert_delete_eq S).
    apply map_to_list_insert, lookup_delete_eq.
  - transitivity (map (fun kr : Date * Row => feature_date (snd kr))
                      ((d, r) :: map_to_list (delete d S))).
    + cbn [map snd]. now rewrite upd_date.
    + apply Permutation_map. now apply map_to_list_delete.
Qed.

Lemma guarded_updates_dates batch (S : Store) :
  Permutation
    (map (fun kr => feature_date (snd kr)) (map_to_list (guarded_updates guard upd batch S)))
    (map (fun kr => feature_date (snd kr)) (map_to_list S)).
Proof.
  unfold guarded_updates. revert S.
  induction batch as [| row batch IH]; intros S; [reflexivity |].
  cbn [fold_left]. etransitivity; [apply IH | apply guarded_update_dates].
Qed.

(** The updates keep the number of rows in the window. *)
Lemma guarded_updates_window today batch (S : Store) :
  length (window_rows today (guarded_updates guard upd batch S))
  = length (window_rows today S).
Proof.
  rewrite !window_rows_length. apply filter_length_permutation, guarded_updates_dates.
Qed.

End WindowSize.

Lemma rain_main_window today (fetch : RainRun.Fetch) (S : Store) :
  length (window_rows today (fst (RainRun.main fetch S))) = length (window_rows today S).
Proof.
  rewrite rain_main_store. apply guarded_updates_window.
  intros v r. now destruct r.
Qed.

Lemma day_type_main_window today (holiday_dates : gset string) (S : Store) :
  length (window_rows today (fst (DayTypeRun.main holiday_dates S)))
  = length (window_rows today S).
Proof.
  rewrite day_type_main_closed. cbn [fst]. apply guarded_updates_window.
  intros v r. now destruct r.
Qed.

Lemma filter_none {A} (p : A -> bool) (l : list A) :
  (forall x, In x l -> p x = false) -> List.filter p l = [].
Proof.
  induction l as [| x l IH]; intros H; [reflexivity |]. cbn [List.filter].
  rewrite (H x) by now left. apply IH. intros y Hy. apply H. now right.
Qed.

(** X17. The rain check that follows a run of the rain script, with the
    record count of a transit report taken on the table before the run: the
    script keeps the number of rows in the window, so the rows with and
    without rain add up to that count, and the verdict is FAIL exactly when
    the window is empty or more than a fifth of its rows are still without
    rain.  When the weather side returned a row for every date asked, no row
    is without rain and the check passes unless the window is empty. *)
Theorem rain_check_after_rain_run (today : Date) (fetch : RainRun.Fetch) (S : Store) :
  let pending := RainRun.get_null_rain_dates_from_db S in
  let fetched := default [] (fetch pending) in
  let S' := fst (RainRun.main fetch S) in
  let q := rain_quality_report today (Some (mot_quality_report today S)) S' in
  let n := Z.of_nat (length (window_rows today S)) in
  rain_records_processed q + rain_null_rain_remaining q = n
  /\ (rain_status q = FAIL <-> n = 0 \/ n < 5 * rain_null_rain_remaining q)
  /\ ((forall d, In d pending -> In d (map fst fetched)) ->
      rain_null_rain_remaining q = 0 /\ (rain_status q = PASS <-> n <> 0)).
Proof.
  intros pending fetched S' q n.
  assert (Hcount : rain_records_processed q + rain_null_rain_remaining q = n).
  { unfold q, rain_quality_report. cbn [rain_records_processed rain_null_rain_remaining].
    unfold n. rewrite <- (rain_main_window today fetch S). fold S'.
    rewrite <- (filter_negb_length (fun r => is_null (rain_average r))
                  (window_rows today S')). lia. }
  assert (Hnull : 0 <= rain_null_rain_remaining q).
  { unfold q, rain_quality_report. cbn [rain_null_rain_remaining]. lia. }
  assert (Hproc : 0 <= rain_records_processed q).
  { unfold q, rain_quality_report. cbn [rain_records_processed]. lia. }
  pose proof (rain_status_closed today (Some (mot_quality_report today S)) S') as Hst.
  cbv zeta in Hst. fold q in Hst.
  change (total_records_of (Some (mot_quality_report today S))) with n in Hst.
  pose proof (coverage_below_threshold (rain_records_processed q) n) as Hthr.
  assert (Hfail : rain_status q = FAIL <-> n = 0 \/ n < 5 * rain_null_rain_remaining q).
  { rewrite Hst. destruct (Qltb _ (8 # 10)).
    - split; [intros _ | reflexivity]. assert (H : n <= 0 \/ 10 * rain_records_processed q < 8 * n)
        by (now apply Hthr). lia.
    - split; [destruct (0 <? rain_null_rain_remaining q); discriminate |].
      intros H. assert (H' : n <= 0 \/ 10 * rain_records_processed q < 8 * n) by lia.
      apply Hthr in H'. discriminate. }
  split; [exact Hcount |]. split; [exact Hfail |].
  intros Hall.
  assert (H0 : rain_null_rain_remaining q = 0).
  { unfold q, rain_quality_report. cbn [rain_null_rain_remaining].
    rewrite filter_none; [reflexivity |]. intros r Hr.
    apply in_window_rows in Hr. destruct Hr as [d Hd]. fold S' in Hd.
    destruct (rain_average r) eqn:Er; [reflexivity |]. exfalso.
    assert (Hgap : In d (RainRun.get_null_rain_dates_from_db S')).
    { apply (proj1 (selected_dates_spec rain_pending S')). exists r.
      split; [exact Hd |]. unfold rain_pending. now rewrite Er. }
    apply rain_main_gap in Hgap. destruct Hgap as [Hp Hnot]. apply Hnot, Hall, Hp. }
  split; [exact H0 |].
  split.
  - intros Hpass Hn. assert (Hf : rain_status q = FAIL) by (apply Hfail; now left).
    congruence.
  - intros Hn. rewrite Hst. rewrite H0. cbn [Z.ltb Z.compare].
    destruct (Qltb _ (8 # 10)) eqn:Eq; [| reflexivity]. exfalso.
    assert (H : n <= 0 \/ 10 * rain_records_processed q < 8 * n) by (now apply Hthr).
    lia.
Qed.

(** ** Runs of the DAG with the rain and day-type scripts as collectors *)

Lemma rain_not_fail_positive today m S :
  rain_status (rain_quality_report today (Some m) S) <> FAIL -> 0 < mot_records_processed m.
Proof.
  intros Hnf. pose proof (rain_status_closed today (Some m) S) as Hst. cbv zeta in Hst.
  cbn [total_records_of] in Hst.
  destruct (0 <? mot_records_processed m) eqn:E; [now apply Z.ltb_lt in E |].
  exfalso. apply Hnf. rewrite Hst. reflexivity.
Qed.

(** The day-type report taken right after a run of the day-type script. *)
Lemma day_type_report_after_run today (holiday_dates : gset string) (m : MotQuality)
    (S : Store) :
  let q := day_type_quality_report today (Some m)
             (fst (DayTypeRun.main holiday_dates S)) in
  dtq_pending_day_type_remaining q = 0
  /\ dtq_records_processed q = Z.of_nat (length (window_rows today S)).
Proof.
  cbv zeta. set (S' := fst (DayTypeRun.main holiday_dates S)).
  assert (H0 : List.filter (fun r => day_type r =? -1) (window_rows today S') = []).
  { apply filter_none. intros r Hr. apply in_window_rows in Hr. destruct Hr as [d Hd].
    exact (day_type_main_classified holiday_dates S d r Hd). }
  unfold day_type_quality_report.
  cbn [dtq_pending_day_type_remaining dtq_records_processed].
  split; [now rewrite H0 |].
  rewrite <- (day_type_main_window today holiday_dates S). fold S'.
  rewrite <- (filter_negb_length (fun r => day_type r =? -1) (window_rows today S')).
  rewrite H0. cbn [length]. lia.
Qed.

(** X18. In a run of the DAG whose rain and day-type collection tasks are the
    two scripts (with any weather answers and any holiday set) and complete,
    [day_type_quality_failed] never runs.  When the day-type check is reached
    the rain check has found the window non-empty, the scripts have kept its
    size, and the day-type script has left no row pending: the report counts
    every window row as classified and its status is not FAIL. *)
Theorem day_type_check_never_fails_in_a_run (today : Date) (collect_mot : Store -> Store)
    (fetch : RainRun.Fetch) (holiday_dates : gset string) (S : Store) :
  let r := run_dag today collect_mot
                   (fun T => fst (RainRun.main fetch T))
                   (fun T => fst (DayTypeRun.main holiday_dates T)) S in
  succeeded (rs_states r) day_type_quality_failed = false
  /\ match rs_day_type_result r with
     | Some q3 =>
         dtq_pending_day_type_remaining q3 = 0
         /\ dtq_records_processed q3
            = Z.of_nat (length (window_rows today (collect_mot S)))
         /\ 0 < dtq_records_processed q3
         /\ dtq_status q3 <> FAIL
     | None => succeeded (rs_states r) day_type_quality_check = false
     end.
Proof.
  intros r. subst r. rewrite run_dag_final.
  set (S1 := collect_mot S).
  set (q1 := mot_quality_report today S1).
  set (S2 := fst (RainRun.main fetch S1)).
  set (q2 := rain_quality_report today (Some q1) S2).
  set (q3 := day_type_quality_report today (Some q1)
               (fst (DayTypeRun.main holiday_dates S2))).
  destruct (decide (mot_status q1 = FAIL)) as [E1 | E1]; [split; reflexivity |].
  destruct (decide (rain_status q2 = FAIL)) as [E2 | E2]; [split; reflexivity |].
  assert (Hpos : 0 < mot_records_processed q1) by (exact (rain_not_fail_positive _ _ _ E2)).
  assert (Hn : mot_records_processed q1 = Z.of_nat (length (window_rows today S1)))
    by reflexivity.
  destruct (day_type_report_after_run today holiday_dates q1 S2) as [Hpend Hproc].
  fold q3 in Hpend, Hproc.
  assert (Hsize : dtq_records_processed q3 = Z.of_nat (length (window_rows today S1))).
  { rewrite Hproc. unfold S2. now rewrite rain_main_window. }
  assert (Hnf : dtq_status q3 <> FAIL).
  { pose proof (dtq_status_closed today (Some q1) (fst (DayTypeRun.main holiday_dates S2)))
      as Hst.
    cbv zeta in Hst. fold q3 in Hst. cbn [total_records_of] in Hst. rewrite Hst.
    destruct (Qltb _ (8 # 10)) eqn:Eq.
    - exfalso.
      assert (H : mot_records_processed q1 <= 0
                  \/ 10 * dtq_records_processed q3 < 8 * mot_records_processed q1)
        by (now apply coverage_below_threshold).
      lia.
    - destruct (negb _); [discriminate |]. rewrite Hpend. discriminate. }
  destruct (decide (dtq_status q3 = FAIL)) as [E3 | E3]; [contradiction |].
  cbn [rs_states rs_day_type_result].
  split; [reflexivity |]. repeat split; try assumption. lia.
Qed.

(** X19. The three scripts in sequence.  A date that the transit run adds
    comes out of the rain run and the day-type run with the same counts and
    [dow], with the day type the classification gives its date, and with the
    rain value of a fetched row for that date, or still without rain when no
    row was fetched for it. *)
Theorem pipeline_completes_new_rows (api : Api) (today : Date) (fetch : RainRun.Fetch)
    (holiday_dates : gset string) (S : Store) (d : Date) (r1 : Row) :
  let S1 := run_store (main api today S) in
  let S2 := fst (RainRun.main fetch S1) in
  let S3 := fst (DayTypeRun.main holiday_dates S2) in
  let fetched := default [] (fetch (RainRun.get_null_rain_dates_from_db S1)) in
  S !! d = None -> S1 !! d = Some r1 ->
  exists r3,
    S3 !! d = Some r3
    /\ feature_date r3 = d /\ dow r3 = date_weekday d
    /\ (forall l, get_line l r3 = get_line l r1)
    /\ day_type r3
       = fst (day_type_of (strftime_ymd d) holiday_dates
                (festival_dates_of (DayTypeRun.get_day_type_null_dates_from_db S2)))
    /\ (rain_average r3 = None /\ ~ In d (map fst fetched)
        \/ exists v, In (d, v) fetched /\ rain_average r3 = Some v).
Proof.
  intros S1 S2 S3 fetched Hnone Hr1.
  destruct (main_store_lookup api today S d)
    as [Heq | (r' & latest & _ & Hr' & Hdate & Htype & Hrain & Hdow & _)].
  { fold S1 in Heq. congruence. }
  fold S1 in Hr'. assert (r' = r1) by congruence. subst r'.
  assert (H2 : exists r2, S2 !! d = Some r2
                 /\ feature_date r2 = d /\ dow r2 = date_weekday d /\ day_type r2 = -1
                 /\ (forall l, get_line l r2 = get_line l r1)
                 /\ (rain_average r2 = None /\ ~ In d (map fst fetched)
                     \/ exists v, In (d, v) fetched /\ rain_average r2 = Some v)).
  { destruct (rain_main_lookup fetch S1 d) as [Heq | (r & v & Hr & _ & Hin & Hs)].
    - exists r1. fold S2 in Heq. split; [congruence |].
      repeat split; try assumption. left. split; [exact Hrain |].
      assert (Hgap : In d (RainRun.get_null_rain_dates_from_db S2)).
      { apply (proj1 (selected_dates_spec rain_pending S2)). exists r1.
        split; [congruence |]. unfold rain_pending. now rewrite Hrain. }
      apply rain_main_gap in Hgap. exact (proj2 Hgap).
    - assert (r = r1) by congruence. subst r. exists (set_rain_value v r1).
      split; [exact Hs |]. destruct r1; cbn in *.
      repeat split; try assumption. right. exists v. auto. }
  destruct H2 as (r2 & Hr2 & Hd2 & Hw2 & Ht2 & Hl2 & Hrain2).
  pose proof (day_type_main_lookup holiday_dates S2 d) as H3. fold S3 in H3.
  rewrite Hr2 in H3. cbn [fmap option_fmap option_map] in H3. rewrite Ht2 in H3.
  cbn [Z.eqb Pos.eqb] in H3.
  eexists. split; [exact H3 |]. destruct r2; cbn in *.
  repeat split; assumption.
Qed.

(** ** The theorems above on concrete runs *)

Lemma rain_run_closes_fetched_gaps_witness :
  exists r,
    half_filled_store !! mkDate 2025 9 5 = Some r
    /\ rain_average r <> None
    /\ fst (RainRun.main steady_rain half_filled_store) !! mkDate 2025 9 5 = Some r.
Proof.
  pose proof (rain_run_closes_fetched_gaps steady_rain half_filled_store) as H.
  cbv zeta in H. destruct H as (_ & Hkeep & _ & _).
  assert (Hr : half_filled_store !! mkDate 2025 9 5
               = Some (settled_row (mkDate 2025 9 5) 1 4 (3 # 2)))
    by (vm_compute; reflexivity).
  assert (Hn : rain_average (settled_row (mkDate 2025 9 5) 1 4 (3 # 2)) <> None)
    by discriminate.
  eexists. split; [exact Hr |]. split; [exact Hn |]. exact (Hkeep _ _ Hr Hn).
Defined.



Lemma main_requests_two_months_witness :
  get_latest_date_from_db monday_store = Some (mkDate 2025 9 8)
  /\ run_requests (main example_api (mkDate 2025 10 5) monday_store)
     = [(2025, 9); (2025, 10)].
Proof.
  assert (Hl : get_latest_date_from_db monday_store = Some (mkDate 2025 9 8))
    by (vm_compute; reflexivity).
  split; [exact Hl |].
  rewrite (main_requests_two_months example_api (mkDate 2025 10 5) monday_store _ Hl).
  reflexivity.
Defined.




Lemma final_report_never_fails_witness :
  succeeded (rs_states (run_dag (mkDate 2025 9 8) (fun T => T) (fun T => T) (fun T => T)
                                complete_store))
            final_quality_validation = true
  /\ FinalReport.overall_status
       (run_dag (mkDate 2025 9 8) (fun T => T) (fun T => T) (fun T => T) complete_store)
     <> FAIL.
Proof.
  assert (Hran : succeeded
                   (rs_states (run_dag (mkDate 2025 9 8) (fun T => T) (fun T => T)
                                       (fun T => T) complete_store))
                   final_quality_validation = true) by (vm_compute; reflexivity).
  split; [exact Hran |].
  pose proof (final_report_never_fails (mkDate 2025 9 8) (fun T => T) (fun T => T)
                (fun T => T) complete_store) as H.
  cbv zeta in H. destruct (H Hran) as (q1 & q2 & q3 & _ & _ & _ & _ & _ & _ & Hnf & _).
  exact Hnf.
Defined.



Lemma rain_check_after_rain_run_witness :
  rain_null_rain_remaining
    (rain_quality_report (mkDate 2025 9 8)
       (Some (mot_quality_report (mkDate 2025 9 8) half_filled_store))
       (fst (RainRun.main steady_rain half_filled_store))) = 0
  /\ rain_status
       (rain_quality_report (mkDate 2025 9 8)
          (Some (mot_quality_report (mkDate 2025 9 8) half_filled_store))
          (fst (RainRun.main steady_rain half_filled_store))) = PASS.
Proof.
  pose proof (rain_check_after_rain_run (mkDate 2025 9 8) steady_rain half_filled_store)
    as H.
  cbv zeta in H. destruct H as (_ & _ & H).
  assert (Hall : forall d,
             In d (RainRun.get_null_rain_dates_from_db half_filled_store) ->
             In d (map fst (default [] (steady_rain
                                          (RainRun.get_null_rain_dates_from_db
                                             half_filled_store))))).
  { intros d Hd. vm_compute in Hd. vm_compute. exact Hd. }
  destruct (H Hall) as [H0 Hpass]. split; [exact H0 |].
  apply Hpass. vm_compute. discriminate.
Defined.

Lemma pipeline_completes_new_rows_witness :
  exists r3,
    fst (DayTypeRun.main holidays_2025
           (fst (RainRun.main steady_rain
                   (run_store (main example_api (mkDate 2025 10 5) monday_store)))))
      !! mkDate 2025 10 1 = Some r3
    /\ feature_date r3 = mkDate 2025 10 1
    /\ dow r3 = 2
    /\ day_type r3 = 1
    /\ get_line BTS r3 = Some 700000%Q.
Proof.
  assert (Hnone : monday_store !! mkDate 2025 10 1 = None) by (vm_compute; reflexivity).
  assert (Hr : run_store (main example_api (mkDate 2025 10 5) monday_store)
                 !! mkDate 2025 10 1 = Some october_first_row)
    by (vm_compute; reflexivity).
  pose proof (pipeline_completes_new_rows example_api (mkDate 2025 10 5) steady_rain
                holidays_2025 monday_store (mkDate 2025 10 1) october_first_row) as H.
  cbv zeta in H. destruct (H Hnone Hr) as (r3 & H3 & Hd & Hw & Hl & Ht & _).
  exists r3. split; [exact H3 |]. split; [exact Hd |].
  split; [rewrite Hw; vm_compute; reflexivity |].
  split; [rewrite Ht; vm_compute; reflexivity |].
  rewrite Hl. reflexivity.
Defined.
